(** * getTraefikConfig: a shallow embedding of the routing-configuration
      synthesizer of src/server/lib/traefik/getTraefikConfig.ts *)

From Stdlib Require Import ZArith Ascii Lia.
From stdpp Require Import base gmap strings pretty list.

Open Scope Z_scope.
Open Scope string_scope.

(* ------------------------------------------------------------------ *)
(** ** JavaScript helpers *)

(** Truthiness of the nullable values read from the database rows:
    [null] and the empty string are falsy, as are [null], [false] and [0]. *)
Definition truthy_s (o : option string) : bool :=
  match o with Some s => negb (String.eqb s "") | None => false end.

Definition truthy_z (o : option Z) : bool :=
  match o with Some z => negb (Z.eqb z 0) | None => false end.

Definition truthy_b (o : option bool) : bool :=
  match o with Some b => b | None => false end.

(** [x || d] on a nullable string. *)
Definition str_or (o : option string) (d : string) : string :=
  if truthy_s o then match o with Some s => s | None => d end else d.

Definition ascii_eqb (a b : ascii) : bool := Ascii.eqb a b.

(** [s.split(c)] for a one-character separator. *)
Fixpoint js_split (c : ascii) (s : string) : list string :=
  match s with
  | EmptyString => [""]
  | String x rest =>
      let l := js_split c rest in
      if ascii_eqb x c then "" :: l
      else match l with
           | h :: t => String x h :: t
           | [] => [String x ""]
           end
  end.

(** [l.join(sep)]. *)
Fixpoint js_join (sep : string) (l : list string) : string :=
  match l with
  | [] => ""
  | [x] => x
  | x :: rest => x +:+ sep +:+ js_join sep rest
  end.

(** JavaScript white space in the 8-bit range, as stripped by [trim]. *)
Definition js_ws (c : ascii) : bool :=
  let n := nat_of_ascii c in
  (n =? 32)%nat || (n =? 9)%nat || (n =? 10)%nat || (n =? 11)%nat
  || (n =? 12)%nat || (n =? 13)%nat || (n =? 160)%nat.

Fixpoint trim_start (s : string) : string :=
  match s with
  | EmptyString => EmptyString
  | String c rest => if js_ws c then trim_start rest else s
  end.

Fixpoint str_rev (s : string) (acc : string) : string :=
  match s with
  | EmptyString => acc
  | String c rest => str_rev rest (String c acc)
  end.

(** [s.trim()]. *)
Definition js_trim (s : string) : string :=
  str_rev (trim_start (str_rev (trim_start s) "")) "".

(** [s.toLowerCase()] on ASCII letters. *)
Definition lower_char (c : ascii) : ascii :=
  let n := nat_of_ascii c in
  if ((65 <=? n)%nat && (n <=? 90)%nat) then ascii_of_nat (n + 32) else c.

Fixpoint js_toLowerCase (s : string) : string :=
  match s with
  | EmptyString => EmptyString
  | String c rest => String (lower_char c) (js_toLowerCase rest)
  end.

(** [s.startsWith("/")]. *)
Definition starts_with_slash (s : string) : bool :=
  match s with String c _ => ascii_eqb c "/"%char | EmptyString => false end.

(** [`${x}`] for a value that may be [undefined]. *)
Definition js_str_undef (o : option string) : string :=
  match o with Some s => s | None => "undefined" end.

(* ------------------------------------------------------------------ *)
(** ** Rows of the snapshot query, targets and route groups *)

Module Site.
Record t := mk {
  siteId : Z;
  type : string;
  subnet : option string;
  exitNodeId : option Z;
  online : bool
}.
End Site.

Module Target.
Record t := mk {
  resourceId : Z;
  targetId : Z;
  ip : string;
  method : option string;
  port : Z;
  internalPort : option Z;
  enabled : bool;
  site : Site.t
}.
End Target.

(** One row of [resourcesWithTargetsAndSites]. *)
Module Row.
Record t := mk {
  resourceId : Z;
  resourceName : option string;
  fullDomain : option string;
  ssl : bool;
  http : option bool;
  proxyPort : option Z;
  protocol : string;
  subdomain : option string;
  domainId : option string;
  enabled : bool;
  stickySession : bool;
  tlsServerName : option string;
  setHostHeader : option string;
  enableProxy : option bool;
  headers : option string;
  proxyProtocol : bool;
  proxyProtocolVersion : option Z;
  maintenanceModeEnabled : option bool;
  maintenanceModeType : option string;
  maintenanceTitle : option string;
  maintenanceMessage : option string;
  maintenanceEstimatedTime : option string;
  targetId : Z;
  targetEnabled : bool;
  ip : string;
  method : option string;
  port : Z;
  internalPort : option Z;
  hcHealth : option string;
  path : option string;
  pathMatchType : option string;
  rewritePath : option string;
  rewritePathType : option string;
  priority : option Z;
  siteId : Z;
  siteType : string;
  siteOnline : bool;
  subnet : option string;
  exitNodeId : option Z;
  domainCertResolver : option string
}.
End Row.

(** The value stored in [resourcesMap] by [resourcesMap.set]. *)
Module Group.
Record t := mk {
  resourceId : Z;
  name : string;
  fullDomain : option string;
  ssl : bool;
  http : option bool;
  proxyPort : option Z;
  protocol : string;
  subdomain : option string;
  domainId : option string;
  enabled : bool;
  stickySession : bool;
  tlsServerName : option string;
  setHostHeader : option string;
  enableProxy : option bool;
  targets : list Target.t;
  headers : option string;
  proxyProtocol : bool;
  proxyProtocolVersion : Z;
  path : option string;
  pathMatchType : option string;
  rewritePath : option string;
  rewritePathType : option string;
  priority : Z;
  domainCertResolver : option string;
  maintenanceModeEnabled : option bool;
  maintenanceModeType : option string;
  maintenanceTitle : option string;
  maintenanceMessage : option string;
  maintenanceEstimatedTime : option string
}.
End Group.

(** [resource.preferWildcardCert]: neither the query's select list nor the
    object built by [resourcesMap.set] carries a [preferWildcardCert]
    property, so reading it on a route group yields [undefined]. *)
Definition group_preferWildcardCert (g : Group.t) : option bool := None.

(* ------------------------------------------------------------------ *)
(** ** The output document *)

Record Tls := mkTls {
  certResolver : option string;
  domains : option (list string)   (** [domains: [{ main }]], the mains *)
}.

Record Router := mkRouter {
  entryPoints : list string;
  r_middlewares : option (list string);
  service : string;
  rule : option string;
  r_priority : option Z;
  tls : option Tls
}.

(** A server entry: [{ url }] (HTTP), [{ address }] (TCP/UDP), or
    [undefined] when [.map] falls through its site-type cases. *)
Inductive Server :=
| Url (u : string)
| Address (a : string).

Inductive Sticky :=
| StickyCookie (cookieName : string) (secure httpOnly : bool)
| StickyIp (depth : Z) (sourcePort : bool).

Record Service := mkService {
  servers : list (option Server);
  passHostHeader : option bool;
  sticky : option Sticky;
  serversTransport : option string
}.

Inductive Middleware :=
| MwRedirectScheme (scheme : string)
| MwHeaders (customRequestHeaders : gmap string string)
| MwRewrite (definition : string).

Record Transport := mkTransport {
  serverName : string;
  insecureSkipVerify : bool
}.

(** One protocol family of the document ([http], [tcp], [udp]). *)
Record ProtocolConfig := mkProtocolConfig {
  routers : option (gmap string Router);
  services : option (gmap string Service);
  middlewares : option (gmap string Middleware);
  serversTransports : option (gmap string Transport)
}.

Abbreviation Doc := (gmap string ProtocolConfig).

Definition set_routers (p : ProtocolConfig) (x : option (gmap string Router)) :=
  mkProtocolConfig x (services p) (middlewares p) (serversTransports p).
Definition set_services (p : ProtocolConfig) (x : option (gmap string Service)) :=
  mkProtocolConfig (routers p) x (middlewares p) (serversTransports p).
Definition set_middlewares (p : ProtocolConfig) (x : option (gmap string Middleware)) :=
  mkProtocolConfig (routers p) (services p) x (serversTransports p).
Definition set_serversTransports (p : ProtocolConfig) (x : option (gmap string Transport)) :=
  mkProtocolConfig (routers p) (services p) (middlewares p) x.

(** Writes through [config_output[proto].<map>[name] = v]; a missing
    [config_output[proto]] or a missing map is a [TypeError] ([None]). *)
Definition put_router (proto name : string) (v : Router) (d : Doc) : option Doc :=
  p ← d !! proto; rs ← routers p;
  Some (<[proto := set_routers p (Some (<[name := v]> rs))]> d).
Definition put_service (proto name : string) (v : Service) (d : Doc) : option Doc :=
  p ← d !! proto; ss ← services p;
  Some (<[proto := set_services p (Some (<[name := v]> ss))]> d).
Definition put_middleware (proto name : string) (v : Middleware) (d : Doc) : option Doc :=
  p ← d !! proto; ms ← middlewares p;
  Some (<[proto := set_middlewares p (Some (<[name := v]> ms))]> d).
Definition put_transport (proto name : string) (v : Transport) (d : Doc) : option Doc :=
  p ← d !! proto; ts ← serversTransports p;
  Some (<[proto := set_serversTransports p (Some (<[name := v]> ts))]> d).

(** [if (!config_output.http.X) config_output.http.X = {}]. *)
Definition ensure_routers (proto : string) (d : Doc) : option Doc :=
  p ← d !! proto;
  Some (match routers p with
        | Some _ => d | None => <[proto := set_routers p (Some ∅)]> d end).
Definition ensure_services (proto : string) (d : Doc) : option Doc :=
  p ← d !! proto;
  Some (match services p with
        | Some _ => d | None => <[proto := set_services p (Some ∅)]> d end).
Definition ensure_middlewares (proto : string) (d : Doc) : option Doc :=
  p ← d !! proto;
  Some (match middlewares p with
        | Some _ => d | None => <[proto := set_middlewares p (Some ∅)]> d end).
Definition ensure_serversTransports (proto : string) (d : Doc) : option Doc :=
  p ← d !! proto;
  Some (match serversTransports p with
        | Some _ => d | None => <[proto := set_serversTransports p (Some ∅)]> d end).

(** Lookups used to read the document back. *)
Definition doc_router (proto name : string) (d : Doc) : option Router :=
  p ← d !! proto; rs ← routers p; rs !! name.
Definition doc_service (proto name : string) (d : Doc) : option Service :=
  p ← d !! proto; ss ← services p; ss !! name.
Definition doc_middleware (proto name : string) (d : Doc) : option Middleware :=
  p ← d !! proto; ms ← middlewares p; ms !! name.

Definition redirectHttpsMiddlewareName := "redirect-to-https".
Definition badgerMiddlewareName := "badger".

(** [config_output] before the loop over route groups. *)
Definition initial_config_output : Doc :=
  {[ "http" := mkProtocolConfig None None
       (Some {[ redirectHttpsMiddlewareName := MwRedirectScheme "https" ]}) None ]}.

(** [config.getRawConfig().traefik]. *)
Record TraefikConfig := mkTraefikConfig {
  cert_resolver : option string;
  prefer_wildcard_cert : option bool;
  http_entrypoint : string;
  https_entrypoint : string;
  maintenance_port : option Z;
  maintenance_host : option string;
  additional_middlewares : option (list string);
  pp_transport_prefix : string
}.

(** [resourcesMap]: a JavaScript [Map], kept in insertion order. *)
Abbreviation ResourcesMap := (list (option string * Group.t)).

(* ------------------------------------------------------------------ *)
(** ** The synthesizer *)

Section Synthesizer.

(** The process-wide configuration and the collaborators imported from
    [./utils] and [./middleware], which the synthesizer calls but does
    not define: [sanitize] (string or [null] to string or [undefined]),
    the [isValid] result of [validatePathRewriteConfig],
    [createPathRewriteMiddleware] ([None] when it throws; otherwise its
    middleware definitions and its optional [chain]), and [JSON.parse] of
    the custom headers ([None] when it throws). *)
Variable cfg : TraefikConfig.
Variable sanitize : option string -> option string.
Variable validatePathRewriteConfig :
  option string -> option string -> option string -> option string -> bool.
Variable createPathRewriteMiddleware :
  string -> string -> string -> string -> string ->
  option (list (string * Middleware) * option (list string)).
Variable parseHeaders : string -> option (list (string * string)).

(** *** Route-Group Aggregator (the [forEach] over the rows) *)

Definition row_pathKey (row : Row.t) : string :=
  let targetPath := str_or (sanitize (Row.path row)) "" in
  let pathMatchType := str_or (Row.pathMatchType row) "" in
  let rewritePath := str_or (Row.rewritePath row) "" in
  let rewritePathType := str_or (Row.rewritePathType row) "" in
  js_join "-" (List.filter (fun s => negb (String.eqb s ""))
                 [targetPath; pathMatchType; rewritePath; rewritePathType]).

Definition row_mapKey (row : Row.t) : string :=
  let pathKey := row_pathKey row in
  js_join "-" ((if Z.eqb (Row.resourceId row) 0 then []
                else [pretty (Row.resourceId row)])
               ++ (if String.eqb pathKey "" then [] else [pathKey])).

(** [const key = sanitize(mapKey)]. *)
Definition row_key (row : Row.t) : option string := sanitize (Some (row_mapKey row)).

Definition row_target (row : Row.t) : Target.t :=
  Target.mk (Row.resourceId row) (Row.targetId row) (Row.ip row) (Row.method row)
    (Row.port row) (Row.internalPort row) (Row.targetEnabled row)
    (Site.mk (Row.siteId row) (Row.siteType row) (Row.subnet row)
       (Row.exitNodeId row) (Row.siteOnline row)).

Definition new_group (row : Row.t) : Group.t :=
  Group.mk (Row.resourceId row) (str_or (sanitize (Row.resourceName row)) "")
    (Row.fullDomain row) (Row.ssl row) (Row.http row) (Row.proxyPort row)
    (Row.protocol row) (Row.subdomain row) (Row.domainId row) (Row.enabled row)
    (Row.stickySession row) (Row.tlsServerName row) (Row.setHostHeader row)
    (Row.enableProxy row) [] (Row.headers row) (Row.proxyProtocol row)
    (match Row.proxyProtocolVersion row with Some v => v | None => 1 end)
    (Row.path row) (Row.pathMatchType row) (Row.rewritePath row)
    (Row.rewritePathType row)
    (match Row.priority row with Some p => p | None => 100 end)
    (Row.domainCertResolver row) (Row.maintenanceModeEnabled row)
    (Row.maintenanceModeType row) (Row.maintenanceTitle row)
    (Row.maintenanceMessage row) (Row.maintenanceEstimatedTime row).

Definition push_target (t : Target.t) (g : Group.t) : Group.t :=
  Group.mk (Group.resourceId g) (Group.name g) (Group.fullDomain g) (Group.ssl g)
    (Group.http g) (Group.proxyPort g) (Group.protocol g) (Group.subdomain g)
    (Group.domainId g) (Group.enabled g) (Group.stickySession g)
    (Group.tlsServerName g) (Group.setHostHeader g) (Group.enableProxy g)
    (Group.targets g ++ [t]) (Group.headers g) (Group.proxyProtocol g)
    (Group.proxyProtocolVersion g) (Group.path g) (Group.pathMatchType g)
    (Group.rewritePath g) (Group.rewritePathType g) (Group.priority g)
    (Group.domainCertResolver g) (Group.maintenanceModeEnabled g)
    (Group.maintenanceModeType g) (Group.maintenanceTitle g)
    (Group.maintenanceMessage g) (Group.maintenanceEstimatedTime g).

Definition map_has (k : option string) (m : ResourcesMap) : bool :=
  existsb (fun e => bool_decide (e.1 = k)) m.

(** [resourcesMap.get(key).targets.push(t)]. *)
Definition map_push (k : option string) (t : Target.t) (m : ResourcesMap) : ResourcesMap :=
  map (fun e => if bool_decide (e.1 = k) then (e.1, push_target t e.2) else e) m.

(** The body of the [forEach] callback on one row. *)
Definition aggregate_row (m : ResourcesMap) (row : Row.t) : ResourcesMap :=
  let key := row_key row in
  if map_has key m then map_push key (row_target row) m
  else if validatePathRewriteConfig (Row.path row) (Row.pathMatchType row)
            (Row.rewritePath row) (Row.rewritePathType row)
  then map_push key (row_target row) (m ++ [(key, new_group row)])
  else m.

Definition aggregate (rows : list Row.t) : ResourcesMap :=
  fold_left aggregate_row rows [].

(** *** Availability Evaluator and Backend Target Resolver *)

Definition is_local_or_wireguard (s : Site.t) : bool :=
  String.eqb (Site.type s) "local" || String.eqb (Site.type s) "wireguard".
Definition is_newt (s : Site.t) : bool := String.eqb (Site.type s) "newt".

(** [targets.some((t) => t.site.online)]. *)
Definition anySitesOnline (targets : list Target.t) : bool :=
  existsb (fun t => Site.online (Target.site t)) targets.

(** The filter callback of [availableServers] (lines 362-378). *)
Definition available_pred (targets : list Target.t) (target : Target.t) : bool :=
  if negb (Target.enabled target) then false
  else if anySitesOnline targets && negb (Site.online (Target.site target)) then false
  else if is_local_or_wireguard (Target.site target) then
    negb (String.eqb (Target.ip target) "") && truthy_z (Some (Target.port target))
    && truthy_s (Target.method target)
  else if is_newt (Target.site target) then
    truthy_z (Target.internalPort target) && truthy_s (Target.method target)
    && truthy_s (Site.subnet (Target.site target))
  else false.

Definition availableServers (targets : list Target.t) : list Target.t :=
  List.filter (available_pred targets) targets.

(** The filter callback of the HTTP [loadBalancer.servers] (lines 682-713). *)
Definition http_server_pred (targets : list Target.t) (target : Target.t) : bool :=
  if negb (Target.enabled target) then false
  else if anySitesOnline targets && negb (Site.online (Target.site target)) then false
  else if is_local_or_wireguard (Target.site target) then
    if String.eqb (Target.ip target) "" || negb (truthy_z (Some (Target.port target)))
       || negb (truthy_s (Target.method target)) then false else true
  else if is_newt (Target.site target) then
    if negb (truthy_z (Target.internalPort target)) || negb (truthy_s (Target.method target))
       || negb (truthy_s (Site.subnet (Target.site target))) then false else true
  else true.

(** [subnet.split("/")[0]]. *)
Definition subnet_ip (subnet : option string) : string :=
  match subnet with
  | Some s => match js_split "/"%char s with h :: _ => h | [] => "" end
  | None => ""
  end.

Definition js_str_opt (o : option string) : string :=
  match o with Some s => s | None => "null" end.
Definition js_str_optz (o : option Z) : string :=
  match o with Some z => pretty z | None => "null" end.

(** The [.map] callback of the HTTP servers (lines 714-729). *)
Definition http_endpoint (target : Target.t) : option Server :=
  if is_local_or_wireguard (Target.site target) then
    Some (Url (js_str_opt (Target.method target) +:+ "://" +:+ Target.ip target
               +:+ ":" +:+ pretty (Target.port target)))
  else if is_newt (Target.site target) then
    Some (Url (js_str_opt (Target.method target) +:+ "://"
               +:+ subnet_ip (Site.subnet (Target.site target))
               +:+ ":" +:+ js_str_optz (Target.internalPort target)))
  else None.

Definition server_url (v : option Server) : option string :=
  match v with Some (Url u) => Some u | _ => None end.

(** [a.findIndex((t) => t && v && t.url === v.url)], [-1] when none. *)
Fixpoint findIndex_url (v : option Server) (a : list (option Server)) (i : Z) : Z :=
  match a with
  | [] => -1
  | t :: rest =>
      match t, v with
      | Some _, Some _ =>
          if bool_decide (server_url t = server_url v) then i
          else findIndex_url v rest (i + 1)
      | _, _ => findIndex_url v rest (i + 1)
      end
  end.

Fixpoint filter_index {A} (p : A -> Z -> bool) (l : list A) (i : Z) : list A :=
  match l with
  | [] => []
  | x :: rest => if p x i then x :: filter_index p rest (i + 1)
                 else filter_index p rest (i + 1)
  end.

(** [.filter((v, i, a) => a.findIndex(...) === i)]. *)
Definition dedup_servers (a : list (option Server)) : list (option Server) :=
  filter_index (fun v i => Z.eqb (findIndex_url v a 0) i) a 0.

Definition http_servers (targets : list Target.t) : list (option Server) :=
  dedup_servers (map http_endpoint (List.filter (http_server_pred targets) targets)).

(** The filter callback of the TCP/UDP servers (lines 805-831). *)
Definition raw_server_pred (targets : list Target.t) (target : Target.t) : bool :=
  if negb (Target.enabled target) then false
  else if anySitesOnline targets && negb (Site.online (Target.site target)) then false
  else if is_local_or_wireguard (Target.site target) then
    if String.eqb (Target.ip target) "" || negb (truthy_z (Some (Target.port target)))
    then false else true
  else if is_newt (Target.site target) then
    if negb (truthy_z (Target.internalPort target))
       || negb (truthy_s (Site.subnet (Target.site target))) then false else true
  else true.

(** The [.map] callback of the TCP/UDP servers (lines 832-847). *)
Definition raw_endpoint (target : Target.t) : option Server :=
  if is_local_or_wireguard (Target.site target) then
    Some (Address (Target.ip target +:+ ":" +:+ pretty (Target.port target)))
  else if is_newt (Target.site target) then
    Some (Address (subnet_ip (Site.subnet (Target.site target))
                   +:+ ":" +:+ js_str_optz (Target.internalPort target)))
  else None.

Definition raw_servers (targets : list Target.t) : list (option Server) :=
  map raw_endpoint (List.filter (raw_server_pred targets) targets).

(** *** Maintenance Decision (lines 380-397) *)

Definition showMaintenancePage (g : Group.t) (hasHealthyServers : bool) : bool :=
  if truthy_b (Group.maintenanceModeEnabled g) then
    if bool_decide (Group.maintenanceModeType g = Some "forced") then true
    else if bool_decide (Group.maintenanceModeType g = Some "automatic")
    then negb hasHealthyServers
    else false
  else false.

(** *** TLS blocks *)

(** [resource.fullDomain] once the HTTP branch has checked it is truthy. *)
Definition fd_of (g : Group.t) : string := js_str_opt (Group.fullDomain g).

(** The wildcard of the maintenance router (lines 407-411). *)
Definition maintenance_wildCard (g : Group.t) : string :=
  let fullDomain := fd_of g in
  let domainParts := js_split "."%char fullDomain in
  if truthy_s (Group.subdomain g) then "*." +:+ js_join "." (tail domainParts)
  else fullDomain.

(** The TLS block of the maintenance router (lines 413-419). *)
Definition maintenance_tls (g : Group.t) : Tls :=
  let certResolver :=
    match Group.domainCertResolver g with
    | Some s => if String.eqb (js_trim s) "" then cert_resolver cfg else Some (js_trim s)
    | None => cert_resolver cfg
    end in
  let pref := match group_preferWildcardCert g with
              | Some b => Some b | None => prefer_wildcard_cert cfg end in
  mkTls certResolver (if truthy_b pref then Some [maintenance_wildCard g] else None).

(** The wildcard of the normal router (lines 453-463). *)
Definition normal_wildCard (g : Group.t) : string :=
  let fullDomain := js_str_opt (Group.fullDomain g) in
  let domainParts := js_split "."%char fullDomain in
  let wildCard :=
    if (length domainParts <=? 2)%nat then "*." +:+ js_join "." domainParts
    else "*." +:+ js_join "." (tail domainParts) in
  if negb (truthy_s (Group.subdomain g)) then fd_of g else wildCard.

(** The TLS Policy Resolver of the normal router (lines 465-502). *)
Definition normal_preferWildcard (g : Group.t) : option bool :=
  match group_preferWildcardCert g with
  | Some b => Some b
  | None => prefer_wildcard_cert cfg
  end.

Definition normal_tls (g : Group.t) : Tls :=
  let resolverName :=
    if truthy_s (Group.domainCertResolver g)
    then Some (js_trim (js_str_opt (Group.domainCertResolver g)))
    else cert_resolver cfg in
  mkTls resolverName
    (if truthy_b (normal_preferWildcard g) then Some [normal_wildCard g] else None).

(** *** Rule & Priority Builder (lines 601-640) *)

Definition router_priority (g : Group.t) : Z :=
  let p := Group.priority g in
  if negb (Z.eqb p 0) && negb (Z.eqb p 100) then p
  else if truthy_s (Group.path g) && truthy_s (Group.pathMatchType g) then
    let bonus :=
      if bool_decide (Group.pathMatchType g = Some "exact") then 5
      else if bool_decide (Group.pathMatchType g = Some "prefix") then 3
      else if bool_decide (Group.pathMatchType g = Some "regex") then 2
      else 0 in
    if bool_decide (Group.path g = Some "/") then 1 else 100 + 10 + bonus
  else 100.

Definition host_rule (g : Group.t) : string := "Host(`" +:+ fd_of g +:+ "`)".

Definition router_rule (g : Group.t) : string :=
  let rule := host_rule g in
  if truthy_s (Group.path g) && truthy_s (Group.pathMatchType g) then
    let raw := js_str_opt (Group.path g) in
    let path := if starts_with_slash raw then raw else "/" +:+ raw in
    if bool_decide (Group.pathMatchType g = Some "exact") then
      rule +:+ " && Path(`" +:+ path +:+ "`)"
    else if bool_decide (Group.pathMatchType g = Some "prefix") then
      rule +:+ " && PathPrefix(`" +:+ path +:+ "`)"
    else if bool_decide (Group.pathMatchType g = Some "regex") then
      rule +:+ " && PathRegexp(`" +:+ raw +:+ "`)"
    else rule
  else rule.

(** *** Middleware Chain Builder (lines 504-599) *)

(** Path-rewrite middleware; the [try] block catches a throwing
    [createPathRewriteMiddleware] and keeps the chain as it was. *)
Definition rewrite_step (key : string) (g : Group.t) (d : Doc) (mws : list string)
  : option (Doc * list string) :=
  match Group.rewritePath g, Group.path g with
  | Some rewritePath, Some path =>
      if truthy_s (Group.pathMatchType g) && truthy_s (Group.rewritePathType g) then
        let rewriteMiddlewareName :=
          "rewrite-r" +:+ pretty (Group.resourceId g) +:+ "-" +:+ key in
        match createPathRewriteMiddleware rewriteMiddlewareName path
                (js_str_opt (Group.pathMatchType g)) rewritePath
                (js_str_opt (Group.rewritePathType g)) with
        | Some (defs, chain) =>
            d1 ← ensure_middlewares "http" d;
            d2 ← fold_left (fun acc nm => acc ≫= put_middleware "http" nm.1 nm.2)
                   defs (Some d1);
            Some (d2, app mws (match chain with
                              | Some c => c
                              | None => [rewriteMiddlewareName]
                              end))
        | None => Some (d, mws)
        end
      else Some (d, mws)
  | _, _ => Some (d, mws)
  end.

Definition headersObj (g : Group.t) : gmap string string :=
  let fromJson :=
    if truthy_s (Group.headers g) then
      match parseHeaders (js_str_opt (Group.headers g)) with
      | Some headersArr => fold_left (fun o h => <[h.1 := h.2]> o) headersArr ∅
      | None => ∅
      end
    else ∅ in
  if truthy_s (Group.setHostHeader g)
  then <["Host" := js_str_opt (Group.setHostHeader g)]> fromJson
  else fromJson.

Definition headers_step (key : string) (g : Group.t) (d : Doc) (mws : list string)
  : option (Doc * list string) :=
  if truthy_s (Group.headers g) || truthy_s (Group.setHostHeader g) then
    let obj := headersObj g in
    if bool_decide (obj = ∅) then Some (d, mws)
    else
      let headersMiddlewareName := key +:+ "-headers-middleware" in
      d1 ← ensure_middlewares "http" d;
      d2 ← put_middleware "http" headersMiddlewareName (MwHeaders obj) d1;
      Some (d2, app mws [headersMiddlewareName])
  else Some (d, mws).



(** *** Document Assembler *)

Definition maintenancePort : Z :=
  match maintenance_port cfg with
  | Some p => if Z.eqb p 0 then 8888 else p
  | None => 8888
  end.

(** The maintenance branch (lines 399-451). *)
Definition emit_maintenance (key : string) (g : Group.t) (d : Doc) : option Doc :=
  let maintenanceServiceName := key +:+ "-maintenance-service" in
  let routerName := key +:+ "-maintenance-router" in
  let maintenanceHost := str_or (maintenance_host cfg) "pangolin" in
  let rule := host_rule g in
  d1 ← put_service "http" maintenanceServiceName
         (mkService [Some (Url ("http://" +:+ maintenanceHost +:+ ":"
                                +:+ pretty maintenancePort))]
            (Some true) None None) d;
  d2 ← put_router "http" routerName
         (mkRouter [if Group.ssl g then https_entrypoint cfg else http_entrypoint cfg]
            None maintenanceServiceName (Some rule) (Some 2000)
            (if Group.ssl g then Some (maintenance_tls g) else None)) d1;
  if Group.ssl g then
    put_router "http" (routerName +:+ "-redirect")
      (mkRouter [http_entrypoint cfg] (Some [redirectHttpsMiddlewareName])
         maintenanceServiceName (Some rule) (Some 2000) None) d2
  else Some d2.

Definition set_serversTransport (s : Service) (t : option string) : Service :=
  mkService (servers s) (passHostHeader s) (sticky s) t.

(** The normal HTTP branch (lines 453-767). *)
Definition emit_normal (key : string) (g : Group.t) (d : Doc) : option Doc :=
  let routerName := key +:+ "-" +:+ Group.name g +:+ "-router" in
  let serviceName := key +:+ "-" +:+ Group.name g +:+ "-service" in
  let transportName := key +:+ "-transport" in
  let tls := normal_tls g in
  let additionalMiddlewares :=
    match additional_middlewares cfg with Some l => l | None => [] end in
  let mws0 := badgerMiddlewareName :: additionalMiddlewares in
  '(d1, mws1) ← rewrite_step key g d mws0;
  '(d2, mws2) ← headers_step key g d1 mws1;
  let rule := router_rule g in
  let priority := router_priority g in
  d3 ← put_router "http" routerName
         (mkRouter [if Group.ssl g then https_entrypoint cfg else http_entrypoint cfg]
            (Some mws2) serviceName (Some rule) (Some priority)
            (if Group.ssl g then Some tls else None)) d2;
  d4 ← (if Group.ssl g then
          put_router "http" (routerName +:+ "-redirect")
            (mkRouter [http_entrypoint cfg] (Some [redirectHttpsMiddlewareName])
               serviceName (Some rule) (Some priority) None) d3
        else Some d3);
  d5 ← put_service "http" serviceName
         (mkService (http_servers (Group.targets g)) None
            (if Group.stickySession g
             then Some (StickyCookie "p_sticky" (Group.ssl g) true) else None)
            None) d4;
  if truthy_s (Group.tlsServerName g) then
    d6 ← ensure_serversTransports "http" d5;
    d7 ← put_transport "http" transportName
           (mkTransport (js_str_opt (Group.tlsServerName g)) true) d6;
    svc ← doc_service "http" serviceName d7;
    put_service "http" serviceName (set_serversTransport svc (Some transportName)) d7
  else Some d5.

(** The HTTP branch (lines 348-767). *)
Definition process_http (key : string) (g : Group.t) (d : Doc) : option Doc :=
  if negb (truthy_s (Group.domainId g)) || negb (truthy_s (Group.fullDomain g))
  then Some d
  else
    d1 ← ensure_routers "http" d;
    d2 ← ensure_services "http" d1;
    let hasHealthyServers := (0 <? length (availableServers (Group.targets g)))%nat in
    if showMaintenancePage g hasHealthyServers then emit_maintenance key g d2
    else emit_normal key g d2.

(** The non-HTTP branch (lines 768-866). *)
Definition process_raw (key : string) (g : Group.t) (d : Doc) : option Doc :=
  if negb (truthy_b (Group.enableProxy g)) || negb (truthy_z (Group.proxyPort g))
  then Some d
  else
    let routerName := key +:+ "-" +:+ Group.name g +:+ "-router" in
    let serviceName := key +:+ "-" +:+ Group.name g +:+ "-service" in
    let protocol := js_toLowerCase (Group.protocol g) in
    let port := match Group.proxyPort g with Some p => p | None => 0 end in
    let d1 := match d !! protocol with
              | Some _ => d
              | None => <[protocol := mkProtocolConfig (Some ∅) (Some ∅) None None]> d
              end in
    d2 ← put_router protocol routerName
           (mkRouter [protocol +:+ "-" +:+ pretty port] None serviceName
              (if String.eqb protocol "tcp" then Some "HostSNI(`*`)" else None)
              None None) d1;
    put_service protocol serviceName
      (mkService (raw_servers (Group.targets g)) None
         (if Group.stickySession g then Some (StickyIp 0 true) else None)
         (if Group.proxyProtocol g && String.eqb protocol "tcp"
          then Some (pp_transport_prefix cfg
                     +:+ pretty (if Z.eqb (Group.proxyProtocolVersion g) 0 then 1
                                 else Group.proxyProtocolVersion g)
                     +:+ "@file")
          else None)) d2.

(** One iteration of [for (const [key, resource] of resourcesMap.entries())]. *)
Definition process_group (key : string) (g : Group.t) (d : Doc) : option Doc :=
  if negb (Group.enabled g) then Some d
  else if truthy_b (Group.http g) then process_http key g d
  else process_raw key g d.

Definition assemble (m : ResourcesMap) : option Doc :=
  fold_left (fun acc e => acc ≫= process_group (js_str_undef e.1) e.2)
    m (Some initial_config_output).

(** [getTraefikConfig] after the snapshot query: [None] is a thrown
    [TypeError]. *)
Definition getTraefikConfig (rows : list Row.t) : option Doc :=
  let resourcesMap := aggregate rows in
  match resourcesMap with
  | [] => Some ∅
  | _ => assemble resourcesMap
  end.

End Synthesizer.

(* ------------------------------------------------------------------ *)
(** ** The maintenance page (lines 23-123)

    Strings are sequences of bytes (UTF-8).  The characters [escapeHtml]
    replaces are ASCII, and no byte of a multi-byte UTF-8 sequence is
    ASCII, so replacing bytes replaces exactly the UTF-16 code units the
    regular expression of the source matches. *)

(** The double quote character. *)
Definition dq : string := String "034"%char EmptyString.

(** The replacement [map[char]] of one character, or the character itself
    when the regular expression does not match it. *)
Definition escape_char (c : ascii) : string :=
  if ascii_eqb c "&"%char then "&amp;"
  else if ascii_eqb c "<"%char then "&lt;"
  else if ascii_eqb c ">"%char then "&gt;"
  else if ascii_eqb c "034"%char then "&quot;"
  else if ascii_eqb c "'"%char then "&#039;"
  else String c EmptyString.

(** [escapeHtml]: every character of the class of ampersand, less-than,
    greater-than, double and single quote replaced by [map[char]]. *)
Fixpoint escapeHtml (text : string) : string :=
  match text with
  | EmptyString => EmptyString
  | String c rest => escape_char c +:+ escapeHtml rest
  end.

(** The fixed text of the page template, between its interpolations. *)
Definition maintenance_page_1 : string :=
  "<!DOCTYPE html>
<html lang=" +:+ dq +:+ "en" +:+ dq +:+ ">
<head>
    <meta charset=" +:+ dq +:+ "UTF-8" +:+ dq +:+ ">
    <meta name=" +:+ dq +:+ "viewport" +:+ dq +:+ " content=" +:+ dq +:+ "width=device-width, initial-scale=1.0" +:+ dq +:+ ">
    <meta name=" +:+ dq +:+ "robots" +:+ dq +:+ " content=" +:+ dq +:+ "noindex, nofollow" +:+ dq +:+ ">
    <title>".

Definition maintenance_page_2 : string :=
  "</title>
    <style>
        * { margin: 0; padding: 0; box-sizing: border-box; }
        body {
            font-family: -apple-system, BlinkMacSystemFont, 'Segoe UI', Roboto, 'Helvetica Neue', Arial, sans-serif;
            display: flex;
            justify-content: center;
            align-items: center;
            min-height: 100vh;
            background: linear-gradient(135deg, #667eea 0%, #764ba2 100%);
            color: #fff;
            padding: 1rem;
            line-height: 1.6;
        }
        .container {
            text-align: center;
            padding: 3rem 2rem;
            max-width: 600px;
            background: rgba(255, 255, 255, 0.1);
            backdrop-filter: blur(10px);
            border-radius: 20px;
            box-shadow: 0 8px 32px rgba(0, 0, 0, 0.1);
            border: 1px solid rgba(255, 255, 255, 0.2);
        }
        .icon {
            font-size: 4rem;
            margin-bottom: 1.5rem;
            animation: pulse 2s ease-in-out infinite;
        }
        @keyframes pulse {
            0%, 100% { transform: scale(1); }
            50% { transform: scale(1.1); }
        }
        h1 {
            font-size: 2.5rem;
            margin-bottom: 1rem;
            font-weight: 700;
            line-height: 1.2;
        }
        .message {
            font-size: 1.2rem;
            margin-bottom: 1rem;
            opacity: 0.95;
        }
        .time {
            margin-top: 1.5rem;
            padding: 1rem;
            background: rgba(255, 255, 255, 0.15);
            border-radius: 10px;
            font-size: 1rem;
            font-weight: 500;
        }
        @media (max-width: 640px) {
            h1 { font-size: 2rem; }
            .message { font-size: 1rem; }
            .container { padding: 2rem 1.5rem; }
        }
    </style>
</head>
<body>
    <div class=" +:+ dq +:+ "container" +:+ dq +:+ ">
        <div class=" +:+ dq +:+ "icon" +:+ dq +:+ ">🔧</div>
        <h1>".

Definition maintenance_page_3 : string :=
  "</h1>
        <p class=" +:+ dq +:+ "message" +:+ dq +:+ ">".

Definition maintenance_page_4 : string :=
  "</p>
        ".

Definition maintenance_page_5 : string :=
  "
    </div>
</body>
</html>".

Definition maintenance_time_1 : string :=
  "<div class=" +:+ dq +:+ "time" +:+ dq +:+ ">
                <strong>Estimated completion:</strong><br>
                ".

Definition maintenance_time_2 : string :=
  "
            </div>".

(** [generateMaintenanceHTML]. *)
Definition generateMaintenanceHTML (title message estimatedTime : option string) : string :=
  let safeTitle := escapeHtml (str_or title "Service Temporarily Unavailable") in
  let safeMessage := escapeHtml (str_or message
        "We are currently experiencing technical difficulties. Please check back soon.") in
  let safeEstimatedTime :=
    if truthy_s estimatedTime then Some (escapeHtml (js_str_opt estimatedTime)) else None in
  maintenance_page_1 +:+ safeTitle +:+ maintenance_page_2 +:+ safeTitle
  +:+ maintenance_page_3 +:+ safeMessage +:+ maintenance_page_4
  +:+ (if truthy_s safeEstimatedTime
       then maintenance_time_1 +:+ js_str_opt safeEstimatedTime +:+ maintenance_time_2
       else "")
  +:+ maintenance_page_5.

(** The page with every interpolated text left out: the template alone,
    with or without the estimated-time block. *)
Definition maintenance_template (withTime : bool) : string :=
  maintenance_page_1 +:+ maintenance_page_2 +:+ maintenance_page_3 +:+ maintenance_page_4
  +:+ (if withTime then maintenance_time_1 +:+ maintenance_time_2 else "")
  +:+ maintenance_page_5.

(** The characters that end a text run or an attribute value. *)
Definition markup_chars : list ascii := ["<"%char; ">"%char; "034"%char; "'"%char].

(** The five character references [escapeHtml] writes, without their
    leading ampersand. *)
Definition entity_tails : list string := ["amp;"; "lt;"; "gt;"; "quot;"; "#039;"].

(** Every ampersand of the string starts one of those references. *)
Fixpoint amps_start_entities (s : string) : bool :=
  match s with
  | EmptyString => true
  | String c r =>
      (negb (ascii_eqb c "&"%char) || existsb (fun e => String.prefix e r) entity_tails)
      && amps_start_entities r
  end.

(** Number of occurrences of a character in a string. *)
Fixpoint count_char (c : ascii) (s : string) : nat :=
  match s with
  | EmptyString => 0
  | String x rest => (if ascii_eqb x c then 1 else 0) + count_char c rest
  end.

(** Reads back the five character references [escapeHtml] writes;
    [n] bounds the number of steps. *)
Fixpoint html_unescape (n : nat) (s : string) : string :=
  match n with
  | O => s
  | S n' =>
      match s with
      | EmptyString => EmptyString
      | String c r =>
          if ascii_eqb c "&"%char then
            if String.prefix "amp;" r then
              String "&"%char (html_unescape n' (String.substring 4 (String.length r - 4) r))
            else if String.prefix "lt;" r then
              String "<"%char (html_unescape n' (String.substring 3 (String.length r - 3) r))
            else if String.prefix "gt;" r then
              String ">"%char (html_unescape n' (String.substring 3 (String.length r - 3) r))
            else if String.prefix "quot;" r then
              String "034"%char (html_unescape n' (String.substring 5 (String.length r - 5) r))
            else if String.prefix "#039;" r then
              String "'"%char (html_unescape n' (String.substring 5 (String.length r - 5) r))
            else String c (html_unescape n' r)
          else String c (html_unescape n' r)
      end
  end.

(* ------------------------------------------------------------------ *)
(** ** The snapshot query's filter (lines 202-223) *)

Definition row_admitted (exitNodeId : Z) (siteTypes : list string)
    (allowRawResources : bool) (r : Row.t) : bool :=
  Row.targetEnabled r && Row.enabled r
  && (bool_decide (Row.exitNodeId r = Some exitNodeId)
      || (bool_decide (Row.exitNodeId r = None)
          && bool_decide ("local" ∈ siteTypes)
          && String.eqb (Row.siteType r) "local"))
  && match Row.hcHealth r with
     | Some h => negb (String.eqb h "unhealthy")
     | None => true
     end
  && bool_decide (Row.siteType r ∈ siteTypes)
  && (if allowRawResources then bool_decide (Row.http r <> None)
      else bool_decide (Row.http r = Some true)).

(* ------------------------------------------------------------------ *)
(** ** Concrete inputs *)

Definition cfg_example : TraefikConfig :=
  mkTraefikConfig (Some "letsencrypt") (Some true) "web" "websecure" None None None
    "pp-transport-v".

(** A stand-in for [sanitize] on the inputs below (all of them already
    sanitized): [undefined] on [null] and on the empty string. *)
Definition sanitize_example (o : option string) : option string :=
  match o with Some s => if String.eqb s "" then None else Some s | None => None end.

Definition valid_example (_ _ _ _ : option string) : bool := true.
Definition rewrite_example (_ _ _ _ _ : string)
  : option (list (string * Middleware) * option (list string)) := None.
Definition parse_example (_ : string) : option (list (string * string)) := None.

(** The first example of the spec: one HTTP resource, SSL on, one local
    target [http://10.0.0.5:8080]. *)
Definition row_example : Row.t := {|
  Row.resourceId := 1; Row.resourceName := Some "app";
  Row.fullDomain := Some "example.com"; Row.ssl := true; Row.http := Some true;
  Row.proxyPort := None; Row.protocol := "tcp"; Row.subdomain := None;
  Row.domainId := Some "domain1"; Row.enabled := true; Row.stickySession := false;
  Row.tlsServerName := None; Row.setHostHeader := None; Row.enableProxy := Some true;
  Row.headers := None; Row.proxyProtocol := false; Row.proxyProtocolVersion := None;
  Row.maintenanceModeEnabled := Some false; Row.maintenanceModeType := None;
  Row.maintenanceTitle := None; Row.maintenanceMessage := None;
  Row.maintenanceEstimatedTime := None;
  Row.targetId := 1; Row.targetEnabled := true; Row.ip := "10.0.0.5";
  Row.method := Some "http"; Row.port := 8080; Row.internalPort := None;
  Row.hcHealth := None; Row.path := None; Row.pathMatchType := None;
  Row.rewritePath := None; Row.rewritePathType := None; Row.priority := None;
  Row.siteId := 1; Row.siteType := "local"; Row.siteOnline := true;
  Row.subnet := None; Row.exitNodeId := Some 1; Row.domainCertResolver := None
|}.

Definition run_example (rows : list Row.t) : option Doc :=
  getTraefikConfig cfg_example sanitize_example valid_example rewrite_example
    parse_example rows.

(** A route group the assembler skips without writing anything: disabled,
    an HTTP resource without domain, or a raw resource without proxy port. *)
Definition group_skipped (g : Group.t) : bool :=
  negb (Group.enabled g)
  || (if truthy_b (Group.http g)
      then negb (truthy_s (Group.domainId g)) || negb (truthy_s (Group.fullDomain g))
      else negb (truthy_b (Group.enableProxy g)) || negb (truthy_z (Group.proxyPort g))).

(** The [http] family defines the [redirect-to-https] middleware. *)
Definition mw_ok (p : ProtocolConfig) : Prop :=
  exists ms, middlewares p = Some ms /\ is_Some (ms !! redirectHttpsMiddlewareName).

Definition has_redirect (d : Doc) : Prop :=
  exists p, d !! "http" = Some p /\ mw_ok p.

(** The example row with no domain: an HTTP resource mid-provisioning. *)
Definition row_nodomain : Row.t := {|
  Row.resourceId := 1; Row.resourceName := Some "app";
  Row.fullDomain := None; Row.ssl := true; Row.http := Some true;
  Row.proxyPort := None; Row.protocol := "tcp"; Row.subdomain := None;
  Row.domainId := None; Row.enabled := true; Row.stickySession := false;
  Row.tlsServerName := None; Row.setHostHeader := None; Row.enableProxy := Some true;
  Row.headers := None; Row.proxyProtocol := false; Row.proxyProtocolVersion := None;
  Row.maintenanceModeEnabled := Some false; Row.maintenanceModeType := None;
  Row.maintenanceTitle := None; Row.maintenanceMessage := None;
  Row.maintenanceEstimatedTime := None;
  Row.targetId := 1; Row.targetEnabled := true; Row.ip := "10.0.0.5";
  Row.method := Some "http"; Row.port := 8080; Row.internalPort := None;
  Row.hcHealth := None; Row.path := None; Row.pathMatchType := None;
  Row.rewritePath := None; Row.rewritePathType := None; Row.priority := None;
  Row.siteId := 1; Row.siteType := "local"; Row.siteOnline := true;
  Row.subnet := None; Row.exitNodeId := Some 1; Row.domainCertResolver := None
|}.

(** A raw TCP resource on port 5432 with one local target. *)
Definition row_tcp (targetId : Z) (ip : string) : Row.t := {|
  Row.resourceId := 2; Row.resourceName := Some "db";
  Row.fullDomain := None; Row.ssl := false; Row.http := Some false;
  Row.proxyPort := Some 5432; Row.protocol := "tcp"; Row.subdomain := None;
  Row.domainId := None; Row.enabled := true; Row.stickySession := false;
  Row.tlsServerName := None; Row.setHostHeader := None; Row.enableProxy := Some true;
  Row.headers := None; Row.proxyProtocol := false; Row.proxyProtocolVersion := None;
  Row.maintenanceModeEnabled := Some false; Row.maintenanceModeType := None;
  Row.maintenanceTitle := None; Row.maintenanceMessage := None;
  Row.maintenanceEstimatedTime := None;
  Row.targetId := targetId; Row.targetEnabled := true; Row.ip := ip;
  Row.method := None; Row.port := 5432; Row.internalPort := None;
  Row.hcHealth := None; Row.path := None; Row.pathMatchType := None;
  Row.rewritePath := None; Row.rewritePathType := None; Row.priority := None;
  Row.siteId := targetId; Row.siteType := "local"; Row.siteOnline := true;
  Row.subnet := None; Row.exitNodeId := Some 1; Row.domainCertResolver := None
|}.

(** An enabled target on an online site whose type is none of local,
    wireguard or newt. *)
Definition target_other_site_type : Target.t :=
  Target.mk 1 1 "10.0.0.9" (Some "http") 8080 None true
    (Site.mk 1 "remote" None (Some 1) true).

(** A local target [http://<ip>:8080] on a site with the given online flag. *)
Definition target_local (targetId : Z) (ip : string) (online : bool) : Target.t :=
  Target.mk 1 targetId ip (Some "http") 8080 None true
    (Site.mk targetId "local" None (Some 1) online).

Definition known_site_type (t : Target.t) : bool :=
  is_local_or_wireguard (Target.site t) || is_newt (Target.site t).

Definition rows_tcp_only : list Row.t := [row_tcp 1 "10.0.0.7"].

(** Two TCP targets of the same resource on the same [ip:port]. *)
Definition rows_tcp_same_endpoint : list Row.t :=
  [row_tcp 1 "10.0.0.7"; row_tcp 2 "10.0.0.7"].

Definition targets_one_online : list Target.t :=
  [target_local 1 "10.0.0.1" true; target_local 2 "10.0.0.2" false].
Definition targets_all_offline : list Target.t :=
  [target_local 1 "10.0.0.1" false; target_local 2 "10.0.0.2" false].

(** The name of the maintenance router of the route group [key]. *)
Definition maintenance_router_name (key : string) : string :=
  key +:+ "-maintenance-router".

(** The name of the normal router of the route group [key]. *)
Definition normal_router_name (key : string) (g : Group.t) : string :=
  key +:+ "-" +:+ Group.name g +:+ "-router".

(** An HTTP resource like [row_example] (one local target
    [http://10.0.0.5:8080]), with the given subdomain, domain, certificate
    resolver, path and rewrite configuration, priority and maintenance
    settings. *)
Definition row_http (targetId : Z) (subdomain fullDomain domainCertResolver : option string)
    (path pathMatchType rewritePath rewritePathType : option string)
    (priority : option Z) (mmEnabled : option bool) (mmType : option string) : Row.t := {|
  Row.resourceId := 1; Row.resourceName := Some "app";
  Row.fullDomain := fullDomain; Row.ssl := true; Row.http := Some true;
  Row.proxyPort := None; Row.protocol := "tcp"; Row.subdomain := subdomain;
  Row.domainId := Some "domain1"; Row.enabled := true; Row.stickySession := false;
  Row.tlsServerName := None; Row.setHostHeader := None; Row.enableProxy := Some true;
  Row.headers := None; Row.proxyProtocol := false; Row.proxyProtocolVersion := None;
  Row.maintenanceModeEnabled := mmEnabled; Row.maintenanceModeType := mmType;
  Row.maintenanceTitle := None; Row.maintenanceMessage := None;
  Row.maintenanceEstimatedTime := None;
  Row.targetId := targetId; Row.targetEnabled := true; Row.ip := "10.0.0.5";
  Row.method := Some "http"; Row.port := 8080; Row.internalPort := None;
  Row.hcHealth := None; Row.path := path; Row.pathMatchType := pathMatchType;
  Row.rewritePath := rewritePath; Row.rewritePathType := rewritePathType;
  Row.priority := priority;
  Row.siteId := targetId; Row.siteType := "local"; Row.siteOnline := true;
  Row.subnet := None; Row.exitNodeId := Some 1; Row.domainCertResolver := domainCertResolver
|}.

(** The route group one row makes on its own. *)
Definition group_of (row : Row.t) : Group.t :=
  push_target (row_target row) (new_group sanitize_example row).

(** An HTTP resource in forced maintenance. *)
Definition row_forced : Row.t :=
  row_http 1 None (Some "example.com") None None None None None None
    (Some true) (Some "forced").

(** A catch-all path [/] with a priority override of 50. *)
Definition row_root_override : Row.t :=
  row_http 1 None (Some "example.com") None (Some "/") (Some "prefix") None None
    (Some 50) (Some false) None.

(** A subdomain of a two-label domain, in forced maintenance or not. *)
Definition row_two_labels (mmEnabled : option bool) : Row.t :=
  row_http 1 (Some "app") (Some "app.localhost") None None None None None None
    mmEnabled (Some "forced").

(** A certificate resolver made of white space. *)
Definition row_blank_resolver : Row.t :=
  row_http 1 (Some "app") (Some "app.example.com") (Some "  ") None None None None None
    (Some false) None.

(** Two HTTP targets of the same resource on the same endpoint. *)
Definition rows_http_same_endpoint : list Row.t :=
  [row_http 1 None (Some "example.com") None None None None None None (Some false) None;
   row_http 2 None (Some "example.com") None None None None None None (Some false) None].

(** Two rows of resource 1 whose path/rewrite configurations differ but
    whose '-'-joined keys coincide. *)
Definition row_rewrite_typed : Row.t :=
  row_http 1 None (Some "example.com") None (Some "/api") (Some "prefix")
    (Some "/v1") (Some "prefix") None (Some false) None.
Definition row_rewrite_untyped : Row.t :=
  row_http 2 None (Some "example.com") None (Some "/api") (Some "prefix")
    (Some "/v1-prefix") None None (Some false) None.

(** The group with its path and path match type replaced. *)
Definition group_set_path (g : Group.t) (path pathMatchType : option string) : Group.t :=
  Group.mk (Group.resourceId g) (Group.name g) (Group.fullDomain g) (Group.ssl g)
    (Group.http g) (Group.proxyPort g) (Group.protocol g) (Group.subdomain g)
    (Group.domainId g) (Group.enabled g) (Group.stickySession g)
    (Group.tlsServerName g) (Group.setHostHeader g) (Group.enableProxy g)
    (Group.targets g) (Group.headers g) (Group.proxyProtocol g)
    (Group.proxyProtocolVersion g) path pathMatchType
    (Group.rewritePath g) (Group.rewritePathType g) (Group.priority g)
    (Group.domainCertResolver g) (Group.maintenanceModeEnabled g)
    (Group.maintenanceModeType g) (Group.maintenanceTitle g)
    (Group.maintenanceMessage g) (Group.maintenanceEstimatedTime g).

(** The target [t] sits in the route group of key [k]. *)
Definition in_group (k : option string) (t : Target.t) (m : ResourcesMap) : Prop :=
  exists g, In (k, g) m /\ In t (Group.targets g).

(** The path/rewrite configuration of a row. *)
Definition row_route (r : Row.t) :=
  (Row.resourceId r, Row.path r, Row.pathMatchType r, Row.rewritePath r, Row.rewritePathType r).

(* ------------------------------------------------------------------ *)
(** ** Proofs *)

(** A raw resource on port 8080 whose protocol is written [HTTP]. *)
Definition row_raw_http : Row.t := {|
  Row.resourceId := 3; Row.resourceName := Some "web";
  Row.fullDomain := None; Row.ssl := false; Row.http := Some false;
  Row.proxyPort := Some 8080; Row.protocol := "HTTP"; Row.subdomain := None;
  Row.domainId := None; Row.enabled := true; Row.stickySession := false;
  Row.tlsServerName := None; Row.setHostHeader := None; Row.enableProxy := Some true;
  Row.headers := None; Row.proxyProtocol := false; Row.proxyProtocolVersion := None;
  Row.maintenanceModeEnabled := Some false; Row.maintenanceModeType := None;
  Row.maintenanceTitle := None; Row.maintenanceMessage := None;
  Row.maintenanceEstimatedTime := None;
  Row.targetId := 1; Row.targetEnabled := true; Row.ip := "10.0.0.8";
  Row.method := None; Row.port := 8080; Row.internalPort := None;
  Row.hcHealth := None; Row.path := None; Row.pathMatchType := None;
  Row.rewritePath := None; Row.rewritePathType := None; Row.priority := None;
  Row.siteId := 1; Row.siteType := "local"; Row.siteOnline := true;
  Row.subnet := None; Row.exitNodeId := Some 1; Row.domainCertResolver := None
|}.

(** The group with its custom headers and its [setHostHeader] replaced. *)
Definition group_set_headers (g : Group.t) (headers setHostHeader : option string) : Group.t :=
  Group.mk (Group.resourceId g) (Group.name g) (Group.fullDomain g) (Group.ssl g)
    (Group.http g) (Group.proxyPort g) (Group.protocol g) (Group.subdomain g)
    (Group.domainId g) (Group.enabled g) (Group.stickySession g)
    (Group.tlsServerName g) setHostHeader (Group.enableProxy g)
    (Group.targets g) headers (Group.proxyProtocol g)
    (Group.proxyProtocolVersion g) (Group.path g) (Group.pathMatchType g)
    (Group.rewritePath g) (Group.rewritePathType g) (Group.priority g)
    (Group.domainCertResolver g) (Group.maintenanceModeEnabled g)
    (Group.maintenanceModeType g) (Group.maintenanceTitle g)
    (Group.maintenanceMessage g) (Group.maintenanceEstimatedTime g).

(** A stand-in for [JSON.parse] of the custom headers: an array that
    names the same header twice. *)
Definition parse_headers_example (_ : string) : option (list (string * string)) :=
  Some [("X-Env", "staging"); ("X-Env", "production")].


(** The document once the HTTP branch has ensured its tables. *)
Definition doc_http_ready : Doc :=
  {[ "http" := mkProtocolConfig (Some ∅) (Some ∅)
       (Some {[ redirectHttpsMiddlewareName := MwRedirectScheme "https" ]}) None ]}.

(** The protocol family of the document a route group writes to. *)
Definition group_family (g : Group.t) : string :=
  if truthy_b (Group.http g) then "http" else js_toLowerCase (Group.protocol g).

(** A raw route group the assembler emits, whose protocol names the
    family [http]. *)
Definition raw_http_group (g : Group.t) : bool :=
  Group.enabled g && negb (truthy_b (Group.http g)) && truthy_b (Group.enableProxy g)
  && truthy_z (Group.proxyPort g) && String.eqb (js_toLowerCase (Group.protocol g)) "http".

(** Every table a protocol family has, its successor has too. *)
Definition pc_le (p p' : ProtocolConfig) : Prop :=
  (is_Some (routers p) -> is_Some (routers p'))
  /\ (is_Some (services p) -> is_Some (services p'))
  /\ (is_Some (middlewares p) -> is_Some (middlewares p'))
  /\ (is_Some (serversTransports p) -> is_Some (serversTransports p')).

(** [d'] keeps every family and table of [d], and differs from [d] at most
    in the family [proto]. *)
Definition grows_at (proto : string) (d d' : Doc) : Prop :=
  (forall k p, d !! k = Some p -> exists p', d' !! k = Some p' /\ pc_le p p')
  /\ (forall k, k <> proto -> d' !! k = d !! k).

(** The document has its [http] family, and every other family has its
    [routers] and [services] tables. *)
Definition doc_ready (d : Doc) : Prop :=
  is_Some (d !! "http")
  /\ forall k p, k <> "http" -> d !! k = Some p -> is_Some (routers p) /\ is_Some (services p).

(** Total number of targets over the route groups. *)
Definition target_count (m : ResourcesMap) : nat :=
  sum_list_with (fun e => length (Group.targets e.2)) m.

Section Proofs.

Variable cfg : TraefikConfig.
Variable sanitize : option string -> option string.
Variable validatePathRewriteConfig :
  option string -> option string -> option string -> option string -> bool.
Variable createPathRewriteMiddleware :
  string -> string -> string -> string -> string ->
  option (list (string * Middleware) * option (list string)).
Variable parseHeaders : string -> option (list (string * string)).

Arguments process_group : clear implicits.

(** *** Folding a fallible step over a list *)

Lemma fold_bind_None {A} (f : A -> Doc -> option Doc) (l : list A) :
  fold_left (fun acc x => acc ≫= f x) l None = None.
Proof. induction l; simpl; auto. Qed.

Lemma fold_bind_inv {A} (f : A -> Doc -> option Doc) (P : Doc -> Prop) :
  (forall x d d', P d -> f x d = Some d' -> P d') ->
  forall (l : list A) (acc : option Doc) (d' : Doc),
  (forall d, acc = Some d -> P d) ->
  fold_left (fun acc x => acc ≫= f x) l acc = Some d' -> P d'.
Proof.
  intros Hstep l. induction l as [|x l IH]; intros acc d' Hacc Hfold; simpl in *.
  - auto.
  - destruct acc as [d|].
    + simpl in Hfold. destruct (f x d) as [d1|] eqn:Ef.
      * eapply IH; [|exact Hfold]. intros d2 [= <-]. eauto.
      * rewrite fold_bind_None in Hfold. discriminate.
    + simpl in Hfold. rewrite fold_bind_None in Hfold. discriminate.
Qed.

(** *** The [redirect-to-https] middleware stays defined *)


Lemma has_redirect_insert (proto : string) (p' : ProtocolConfig) (d : Doc) :
  has_redirect d -> (proto = "http" -> mw_ok p') -> has_redirect (<[proto := p']> d).
Proof.
  intros [p [Hp Hok]] Hp'. destruct (decide (proto = "http")) as [->|Hne].
  - exists p'. rewrite lookup_insert_eq. auto.
  - exists p. rewrite lookup_insert_ne; auto.
Qed.

Lemma put_router_redirect proto n v d d' :
  has_redirect d -> put_router proto n v d = Some d' -> has_redirect d'.
Proof.
  unfold put_router. intros Hd H.
  destruct (d !! proto) as [q|] eqn:Eq; simpl in H; [|discriminate].
  destruct (routers q) as [rs|] eqn:Er; simpl in H; [|discriminate].
  injection H as <-. apply has_redirect_insert; [exact Hd|]. intros ->.
  destruct Hd as [p [Hp Hok]]. rewrite Hp in Eq. injection Eq as <-. exact Hok.
Qed.

Lemma mw_ok_of (d : Doc) (q : ProtocolConfig) :
  has_redirect d -> d !! "http" = Some q -> mw_ok q.
Proof. intros [p [Hp Hok]] Hq. rewrite Hp in Hq. injection Hq as <-. exact Hok. Qed.

Ltac step_put Hd H proj :=
  match type of H with
  | context [?d !! ?k] =>
      let q := fresh "q" in let Eq := fresh "Eq" in
      let x := fresh "x" in let Ex := fresh "Ex" in
      destruct (d !! k) as [q|] eqn:Eq; simpl in H; [|discriminate];
      destruct (proj q) as [x|] eqn:Ex; simpl in H; [|discriminate];
      injection H as <-; apply has_redirect_insert; [exact Hd|]; intros ->;
      pose proof (mw_ok_of _ _ Hd Eq) as Hok
  end.

Lemma put_service_redirect proto n v d d' :
  has_redirect d -> put_service proto n v d = Some d' -> has_redirect d'.
Proof. unfold put_service. intros Hd H. step_put Hd H services. exact Hok. Qed.

Lemma put_transport_redirect proto n v d d' :
  has_redirect d -> put_transport proto n v d = Some d' -> has_redirect d'.
Proof. unfold put_transport. intros Hd H. step_put Hd H serversTransports. exact Hok. Qed.

Lemma put_middleware_redirect proto n v d d' :
  has_redirect d -> put_middleware proto n v d = Some d' -> has_redirect d'.
Proof.
  unfold put_middleware. intros Hd H. step_put Hd H middlewares.
  destruct Hok as [ms [Hms Hr]]. rewrite Hms in Ex. injection Ex as <-.
  exists (<[n := v]> ms). split; [reflexivity|].
  apply lookup_insert_is_Some'. auto.
Qed.

Ltac step_ensure Hd H :=
  let q := fresh "q" in let Eq := fresh "Eq" in
  match type of H with
  | context [?d !! ?k] => destruct (d !! k) as [q|] eqn:Eq; simpl in H; [|discriminate]
  end;
  injection H as <-;
  match goal with
  | |- has_redirect (match ?o with Some _ => _ | None => _ end) =>
      let Eo := fresh "Eo" in destruct o eqn:Eo; [exact Hd|]
  end;
  apply has_redirect_insert; [exact Hd|]; intros ->;
  pose proof (mw_ok_of _ _ Hd Eq) as Hok.

Lemma ensure_routers_redirect proto d d' :
  has_redirect d -> ensure_routers proto d = Some d' -> has_redirect d'.
Proof. unfold ensure_routers. intros Hd H. step_ensure Hd H. exact Hok. Qed.

Lemma ensure_services_redirect proto d d' :
  has_redirect d -> ensure_services proto d = Some d' -> has_redirect d'.
Proof. unfold ensure_services. intros Hd H. step_ensure Hd H. exact Hok. Qed.

Lemma ensure_serversTransports_redirect proto d d' :
  has_redirect d -> ensure_serversTransports proto d = Some d' -> has_redirect d'.
Proof. unfold ensure_serversTransports. intros Hd H. step_ensure Hd H. exact Hok. Qed.

Lemma ensure_middlewares_redirect proto d d' :
  has_redirect d -> ensure_middlewares proto d = Some d' -> has_redirect d'.
Proof.
  unfold ensure_middlewares. intros Hd H. step_ensure Hd H.
  destruct Hok as [ms [Hms _]]. simpl in *. congruence.
Qed.

(** Destructs the first fallible step of a chain [x ← e; k = Some _]. *)
Ltac bind_step H :=
  match type of H with
  | mbind _ ?e = Some _ =>
      let E := fresh "E" in
      lazymatch type of e with
      | option (_ * _) =>
          let a := fresh "d" in let b := fresh "mws" in
          destruct e as [[a b]|] eqn:E; simpl in H; [|discriminate]
      | _ =>
          let a := fresh "d" in
          destruct e as [a|] eqn:E; simpl in H; [|discriminate]
      end
  end.

Lemma fold_put_middleware_redirect (defs : list (string * Middleware)) d d' :
  has_redirect d ->
  fold_left (fun acc nm => acc ≫= put_middleware "http" nm.1 nm.2) defs (Some d) = Some d' ->
  has_redirect d'.
Proof.
  intros Hd H.
  apply (fold_bind_inv (fun nm => put_middleware "http" nm.1 nm.2) has_redirect)
    with (l := defs) (acc := Some d); auto.
  - intros nm d1 d2 H1 H2. eapply put_middleware_redirect; eauto.
  - intros d1 [= <-]. exact Hd.
Qed.

Lemma rewrite_step_redirect key g d mws d' mws' :
  has_redirect d ->
  rewrite_step createPathRewriteMiddleware key g d mws = Some (d', mws') ->
  has_redirect d'.
Proof.
  unfold rewrite_step. intros Hd H.
  destruct (Group.rewritePath g), (Group.path g); try (injection H as <- _; exact Hd).
  destruct (truthy_s (Group.pathMatchType g) && truthy_s (Group.rewritePathType g));
    [|injection H as <- _; exact Hd].
  match type of H with context [createPathRewriteMiddleware ?a ?b ?c ?e ?f] =>
    destruct (createPathRewriteMiddleware a b c e f) as [[defs chain]|] end;
    [|injection H as <- _; exact Hd].
  bind_step H. bind_step H. injection H as <- _.
  eapply fold_put_middleware_redirect; [|eassumption].
  eapply ensure_middlewares_redirect; eassumption.
Qed.

Lemma headers_step_redirect key g d mws d' mws' :
  has_redirect d ->
  headers_step parseHeaders key g d mws = Some (d', mws') ->
  has_redirect d'.
Proof.
  unfold headers_step. intros Hd H.
  destruct (truthy_s (Group.headers g) || truthy_s (Group.setHostHeader g));
    [|injection H as <- _; exact Hd].
  destruct (bool_decide (headersObj parseHeaders g = ∅)); [injection H as <- _; exact Hd|].
  bind_step H. bind_step H. injection H as <- _.
  eapply put_middleware_redirect; [|eassumption].
  eapply ensure_middlewares_redirect; eassumption.
Qed.

Lemma emit_maintenance_redirect key g d d' :
  has_redirect d -> emit_maintenance cfg key g d = Some d' -> has_redirect d'.
Proof.
  unfold emit_maintenance. intros Hd H.
  bind_step H. apply put_service_redirect in E; auto.
  bind_step H. apply put_router_redirect in E0; auto.
  destruct (Group.ssl g); [eapply put_router_redirect; eauto|].
  injection H as <-. assumption.
Qed.

Lemma emit_normal_redirect key g d d' :
  has_redirect d ->
  emit_normal cfg createPathRewriteMiddleware parseHeaders key g d = Some d' ->
  has_redirect d'.
Proof.
  unfold emit_normal. intros Hd H.
  bind_step H. apply rewrite_step_redirect in E; auto.
  bind_step H. apply headers_step_redirect in E0; auto.
  bind_step H. apply put_router_redirect in E1; auto.
  bind_step H.
  assert (has_redirect d3).
  { destruct (Group.ssl g); [eapply put_router_redirect; eauto|congruence]. }
  bind_step H. apply put_service_redirect in E3; auto.
  destruct (truthy_s (Group.tlsServerName g)); [|injection H as <-; assumption].
  bind_step H. apply ensure_serversTransports_redirect in E4; auto.
  bind_step H. apply put_transport_redirect in E5; auto.
  bind_step H. eapply put_service_redirect; [exact E5|exact H].
Qed.

Lemma process_group_redirect key g d d' :
  has_redirect d ->
  process_group cfg createPathRewriteMiddleware parseHeaders key g d = Some d' ->
  has_redirect d'.
Proof.
  unfold process_group, process_http, process_raw. intros Hd H.
  destruct (negb (Group.enabled g)); [injection H as <-; exact Hd|].
  destruct (truthy_b (Group.http g)).
  - destruct (negb (truthy_s (Group.domainId g)) || negb (truthy_s (Group.fullDomain g)));
      [injection H as <-; exact Hd|].
    bind_step H. apply ensure_routers_redirect in E; auto.
    bind_step H. apply ensure_services_redirect in E0; auto.
    destruct (showMaintenancePage _ _).
    + eapply emit_maintenance_redirect; eauto.
    + eapply emit_normal_redirect; eauto.
  - destruct (negb (truthy_b (Group.enableProxy g)) || negb (truthy_z (Group.proxyPort g)));
      [injection H as <-; exact Hd|].
    bind_step H. eapply put_service_redirect; [|eassumption].
    eapply put_router_redirect; [|eassumption].
    match goal with |- has_redirect (match ?o with Some _ => _ | None => _ end) =>
      let Eo := fresh "Eo" in destruct o eqn:Eo; [exact Hd|] end.
    apply has_redirect_insert; [exact Hd|]. intros Hp. rewrite Hp in Eo.
    destruct Hd as [p [Hp' _]]. congruence.
Qed.

Lemma assemble_redirect (m : ResourcesMap) d' :
  assemble cfg createPathRewriteMiddleware parseHeaders m = Some d' -> has_redirect d'.
Proof.
  unfold assemble. intros H.
  apply (fold_bind_inv
           (fun e => process_group cfg createPathRewriteMiddleware parseHeaders
                       (js_str_undef e.1) e.2) has_redirect) with (l := m)
    (acc := Some initial_config_output); auto.
  - intros e d1 d2 H1 H2. eapply process_group_redirect; eauto.
  - intros d1 [= <-]. eexists. split; [reflexivity|].
    eexists. split; [reflexivity|]. rewrite lookup_singleton_eq. eauto.
Qed.

Lemma process_group_skipped key g d :
  group_skipped g = true ->
  process_group cfg createPathRewriteMiddleware parseHeaders key g d = Some d.
Proof.
  unfold group_skipped, process_group, process_http, process_raw. intros H.
  destruct (Group.enabled g); simpl in *; [|reflexivity].
  destruct (truthy_b (Group.http g)); rewrite H; reflexivity.
Qed.

Lemma fold_skipped (m : ResourcesMap) d :
  Forall (fun e => group_skipped e.2 = true) m ->
  fold_left (fun acc e => acc ≫= process_group cfg createPathRewriteMiddleware
                                   parseHeaders (js_str_undef e.1) e.2) m (Some d)
  = Some d.
Proof.
  induction 1 as [|e m He _ IH]; simpl; [reflexivity|].
  rewrite process_group_skipped by exact He. exact IH.
Qed.

(** C10: once at least one route group survives aggregation, the returned
    document defines the [redirect-to-https] middleware under [http], whatever
    the groups emit (also when they are all TCP/UDP or all skipped). *)
Theorem getTraefikConfig_defines_redirect_middleware (rows : list Row.t) (d : Doc) :
  aggregate sanitize validatePathRewriteConfig rows <> [] ->
  getTraefikConfig cfg sanitize validatePathRewriteConfig createPathRewriteMiddleware
    parseHeaders rows = Some d ->
  exists mw, doc_middleware "http" redirectHttpsMiddlewareName d = Some mw.
Proof.
  unfold getTraefikConfig. intros Hne H.
  destruct (aggregate sanitize validatePathRewriteConfig rows) as [|e m] eqn:Em;
    [congruence|].
  apply assemble_redirect in H as [p [Hp [ms [Hms [mw Hmw]]]]].
  exists mw. unfold doc_middleware. rewrite Hp. simpl. rewrite Hms. exact Hmw.
Qed.

(** C9 (amended): [getTraefikConfig] returns the empty object exactly when
    aggregation yields no route group (no rows, or every group dropped by the
    path/rewrite validation); when groups exist but the assembler skips all
    of them, it returns the initial document with only the
    [redirect-to-https] middleware. *)
Theorem getTraefikConfig_empty_iff_no_groups (rows : list Row.t) :
  (getTraefikConfig cfg sanitize validatePathRewriteConfig createPathRewriteMiddleware
     parseHeaders rows = Some ∅
   <-> aggregate sanitize validatePathRewriteConfig rows = [])
  /\ (aggregate sanitize validatePathRewriteConfig rows <> [] ->
      Forall (fun e => group_skipped e.2 = true)
        (aggregate sanitize validatePathRewriteConfig rows) ->
      getTraefikConfig cfg sanitize validatePathRewriteConfig
        createPathRewriteMiddleware parseHeaders rows = Some initial_config_output).
Proof.
  unfold getTraefikConfig. split.
  - destruct (aggregate sanitize validatePathRewriteConfig rows) as [|e m] eqn:Em;
      [tauto|].
    split; [|discriminate]. intros H.
    apply assemble_redirect in H as [p [Hp _]]. rewrite lookup_empty in Hp. discriminate.
  - intros Hne Hall.
    destruct (aggregate sanitize validatePathRewriteConfig rows) as [|e m] eqn:Em;
      [congruence|].
    unfold assemble. apply fold_skipped. exact Hall.
Qed.

(** *** Site-online preference *)

Lemma http_server_pred_split (targets : list Target.t) (t : Target.t) :
  http_server_pred targets t
  = (negb (anySitesOnline targets) || Site.online (Target.site t))
    && http_server_pred [] t.
Proof.
  unfold http_server_pred. simpl.
  destruct (Target.enabled t), (anySitesOnline targets), (Site.online (Target.site t));
    simpl; reflexivity.
Qed.

Lemma raw_server_pred_split (targets : list Target.t) (t : Target.t) :
  raw_server_pred targets t
  = (negb (anySitesOnline targets) || Site.online (Target.site t))
    && raw_server_pred [] t.
Proof.
  unfold raw_server_pred. simpl.
  destruct (Target.enabled t), (anySitesOnline targets), (Site.online (Target.site t));
    simpl; reflexivity.
Qed.

Lemma available_pred_split (targets : list Target.t) (t : Target.t) :
  available_pred targets t
  = (negb (anySitesOnline targets) || Site.online (Target.site t))
    && available_pred [] t.
Proof.
  unfold available_pred. simpl.
  destruct (Target.enabled t), (anySitesOnline targets), (Site.online (Target.site t));
    simpl; reflexivity.
Qed.

Lemma filter_in_false {A} (p : A -> bool) (l : list A) (x : A) :
  p x = false -> ~ In x (List.filter p l).
Proof. intros Hp Hin. apply filter_In in Hin as [_ Hx]. congruence. Qed.

(** C3: in every route group, HTTP and TCP/UDP alike, when some target's
    site is online the backend filter keeps exactly the online targets that
    pass the other checks, so no offline target is kept; when no site is
    online the filter's verdict ignores the online flag altogether (it is
    the verdict with no online-preference context). *)
Theorem backend_filter_site_online_fallback (targets : list Target.t) :
  (anySitesOnline targets = true ->
     List.filter (http_server_pred targets) targets
     = List.filter (fun t => Site.online (Target.site t) && http_server_pred [] t) targets
     /\ List.filter (raw_server_pred targets) targets
        = List.filter (fun t => Site.online (Target.site t) && raw_server_pred [] t) targets
     /\ (forall t, Site.online (Target.site t) = false ->
           ~ In t (List.filter (http_server_pred targets) targets)
           /\ ~ In t (List.filter (raw_server_pred targets) targets)))
  /\ (anySitesOnline targets = false ->
        List.filter (http_server_pred targets) targets
        = List.filter (http_server_pred []) targets
        /\ List.filter (raw_server_pred targets) targets
           = List.filter (raw_server_pred []) targets).
Proof.
  split; intros Hany.
  - split; [|split].
    + apply filter_ext. intros t. rewrite http_server_pred_split, Hany. reflexivity.
    + apply filter_ext. intros t. rewrite raw_server_pred_split, Hany. reflexivity.
    + intros t Hoff. split; apply filter_in_false;
        [rewrite http_server_pred_split | rewrite raw_server_pred_split];
        rewrite Hany, Hoff; reflexivity.
  - split; apply filter_ext; intros t;
      [rewrite http_server_pred_split | rewrite raw_server_pred_split];
      rewrite Hany; reflexivity.
Qed.

(** *** The deduplication of the HTTP server list *)

Lemma findIndex_url_undefined (l : list (option Server)) (i : Z) :
  findIndex_url None l i = -1.
Proof.
  revert i. induction l as [|t l IH]; intros i; simpl; [reflexivity|].
  destruct t; apply IH.
Qed.

Lemma findIndex_url_first (l1 l2 : list (option Server)) (x : Server) (i : Z) :
  Forall (fun v => v = None) l1 ->
  findIndex_url (Some x) (l1 ++ Some x :: l2)%list i = i + Z.of_nat (length l1).
Proof.
  intros Hl1. revert i. induction Hl1 as [|v l1 Hv _ IH]; intros i; simpl.
  - rewrite bool_decide_eq_true_2 by reflexivity. lia.
  - subst v. rewrite IH. lia.
Qed.

Lemma filter_index_app {A} (p : A -> Z -> bool) (l1 l2 : list A) (i : Z) :
  filter_index p (l1 ++ l2)%list i
  = (filter_index p l1 i ++ filter_index p l2 (i + Z.of_nat (length l1)))%list.
Proof.
  revert i. induction l1 as [|x l1 IH]; intros i; simpl.
  - f_equal. lia.
  - rewrite IH. replace (i + 1 + Z.of_nat (length l1)) with (i + Z.pos (Pos.of_succ_nat (length l1))) by lia.
    destruct (p x i); reflexivity.
Qed.

Lemma dedup_undefined_prefix (a l : list (option Server)) (i : Z) :
  0 <= i -> Forall (fun v => v = None) l ->
  filter_index (fun v k => Z.eqb (findIndex_url v a 0) k) l i = [].
Proof.
  intros Hi Hl. revert i Hi. induction Hl as [|v l Hv _ IH]; intros i Hi; simpl;
    [reflexivity|].
  subst v. rewrite findIndex_url_undefined.
  destruct (Z.eqb_spec (-1) i); [lia|]. apply IH. lia.
Qed.

Lemma first_defined (a : list (option Server)) :
  Forall (fun v => v = None) a
  \/ exists l1 x l2, a = (l1 ++ Some x :: l2)%list /\ Forall (fun v => v = None) l1.
Proof.
  induction a as [|v a IH]; [left; constructor|].
  destruct v as [x|].
  - right. exists [], x, a. split; [reflexivity|constructor].
  - destruct IH as [H|(l1 & x & l2 & -> & H)].
    + left. constructor; auto.
    + right. exists (None :: l1), x, l2. split; [reflexivity|]. constructor; auto.
Qed.

Lemma dedup_servers_nil_iff (a : list (option Server)) :
  dedup_servers a = [] <-> Forall (fun v => v = None) a.
Proof.
  unfold dedup_servers. split.
  - intros H. destruct (first_defined a) as [Hall|(l1 & x & l2 & Ha & Hl1)]; [exact Hall|].
    exfalso. set (p := fun v k => Z.eqb (findIndex_url v a 0) k) in H.
    rewrite Ha in H at 1. rewrite filter_index_app in H.
    unfold p at 1 in H. rewrite dedup_undefined_prefix in H by (auto; lia).
    simpl in H. unfold p in H. rewrite Ha, findIndex_url_first in H by exact Hl1.
    simpl in H. rewrite Z.eqb_refl in H. discriminate.
  - intros Hall. apply dedup_undefined_prefix; auto; lia.
Qed.

(** *** Availability versus the HTTP backend filter *)

Lemma available_pred_known (targets : list Target.t) (t : Target.t) :
  available_pred targets t = known_site_type t && http_server_pred targets t.
Proof.
  unfold available_pred, http_server_pred, known_site_type, truthy_z, truthy_s.
  destruct (Target.enabled t), (anySitesOnline targets), (Site.online (Target.site t)),
    (is_local_or_wireguard (Target.site t)), (is_newt (Target.site t)),
    (Target.method t), (Target.internalPort t), (Site.subnet (Target.site t));
    simpl; try reflexivity;
    repeat match goal with
    | |- context [String.eqb ?a ?b] => destruct (String.eqb a b)
    | |- context [Z.eqb ?a ?b] => destruct (Z.eqb a b)
    end; reflexivity.
Qed.

Lemma http_endpoint_undefined_iff (t : Target.t) :
  http_endpoint t = None <-> known_site_type t = false.
Proof.
  unfold http_endpoint, known_site_type.
  destruct (is_local_or_wireguard (Target.site t)); simpl; [split; discriminate|].
  destruct (is_newt (Target.site t)); split; (discriminate || reflexivity).
Qed.

Lemma filter_nil_iff {A} (p : A -> bool) (l : list A) :
  List.filter p l = [] <-> (forall x, In x l -> p x = false).
Proof.
  induction l as [|x l IH]; simpl; [split; auto; contradiction|].
  destruct (p x) eqn:Ep.
  - split; [discriminate|]. intros H. rewrite (H x (or_introl eq_refl)) in Ep. discriminate.
  - rewrite IH. split; [intros H y [<-|Hy]; auto | intros H y Hy; auto].
Qed.

(** C2 (amended): the availability predicate and the HTTP backend filter
    agree on every target whose site type is local, wireguard or newt; a
    target of any other site type is never available but passes the backend
    filter, maps to [undefined] and is removed by the deduplication; so a
    group has an available server iff its emitted HTTP server list is
    non-empty. *)
Theorem availability_matches_backend_list (targets : list Target.t) :
  (forall t, known_site_type t = true ->
     available_pred targets t = http_server_pred targets t)
  /\ (forall t, known_site_type t = false ->
        available_pred targets t = false /\ http_endpoint t = None)
  /\ (availableServers targets = [] <-> http_servers targets = []).
Proof.
  split; [|split].
  - intros t Hk. rewrite available_pred_known, Hk. reflexivity.
  - intros t Hk. rewrite available_pred_known, Hk. split; [reflexivity|].
    apply http_endpoint_undefined_iff. exact Hk.
  - unfold availableServers, http_servers. rewrite filter_nil_iff, dedup_servers_nil_iff.
    rewrite List.Forall_forall. split.
    + intros H v Hv. apply in_map_iff in Hv as (t & <- & Ht).
      apply filter_In in Ht as [Hin Hp].
      apply http_endpoint_undefined_iff.
      specialize (H t Hin). rewrite available_pred_known, Hp in H.
      destruct (known_site_type t); [discriminate|reflexivity].
    + intros H t Hin. rewrite available_pred_known.
      destruct (http_server_pred targets t) eqn:Hp; [|apply andb_false_r].
      rewrite andb_true_r. apply http_endpoint_undefined_iff. apply H.
      apply in_map_iff. exists t. split; [reflexivity|]. apply filter_In. auto.
Qed.

(** *** The maintenance decision *)

Lemma string_append_neq (s t : string) : t <> "" -> s +:+ t <> s.
Proof.
  intros Ht. induction s as [|c s IH]; simpl; [exact Ht|].
  intros H. injection H as H. contradiction.
Qed.

Lemma prepare_http_ok (d : Doc) :
  is_Some (d !! "http") ->
  exists d1 d2 p rs ss,
    ensure_routers "http" d = Some d1 /\ ensure_services "http" d1 = Some d2 /\
    d2 !! "http" = Some p /\ routers p = Some rs /\ services p = Some ss /\
    (forall n, doc_router "http" n d2 = doc_router "http" n d1).
Proof.
  intros [p0 Hp0]. unfold ensure_routers. rewrite Hp0. cbn [mbind option_bind].
  set (d1 := match routers p0 with Some _ => d | None => _ end).
  assert (Hd1 : exists p1 rs, d1 !! "http" = Some p1 /\ routers p1 = Some rs).
  { subst d1. destruct (routers p0) as [rs|] eqn:Er.
    - exists p0, rs. auto.
    - eexists _, ∅. rewrite lookup_insert_eq. split; reflexivity. }
  destruct Hd1 as (p1 & rs & Hp1 & Hrs).
  exists d1. unfold ensure_services. rewrite Hp1. cbn [mbind option_bind].
  destruct (services p1) as [ss|] eqn:Ess.
  - eexists _, p1, rs, ss. repeat split; auto.
  - eexists _, (set_services p1 (Some ∅)), rs, ∅. split; [reflexivity|].
    split; [reflexivity|]. rewrite lookup_insert_eq. repeat split; auto.
    intros n. unfold doc_router. rewrite lookup_insert_eq, Hp1. reflexivity.
Qed.

Lemma emit_maintenance_spec key g d p rs ss :
  d !! "http" = Some p -> routers p = Some rs -> services p = Some ss ->
  exists d', emit_maintenance cfg key g d = Some d' /\
    doc_router "http" (maintenance_router_name key) d'
    = Some (mkRouter [if Group.ssl g then https_entrypoint cfg else http_entrypoint cfg]
              None (key +:+ "-maintenance-service") (Some (host_rule g)) (Some 2000)
              (if Group.ssl g then Some (maintenance_tls cfg g) else None)) /\
    (forall n, n <> maintenance_router_name key ->
               n <> maintenance_router_name key +:+ "-redirect" ->
               doc_router "http" n d' = doc_router "http" n d).
Proof.
  intros Hp Hrs Hss. unfold emit_maintenance, put_service, put_router.
  rewrite Hp. cbn [mbind option_bind]. rewrite Hss. cbn [mbind option_bind].
  rewrite lookup_insert_eq. cbn [mbind option_bind routers set_services].
  rewrite Hrs. cbn [mbind option_bind].
  assert (Hneq : maintenance_router_name key +:+ "-redirect" <> maintenance_router_name key)
    by (apply string_append_neq; discriminate).
  destruct (Group.ssl g).
  - rewrite lookup_insert_eq. cbn [mbind option_bind routers set_routers].
    eexists. split; [reflexivity|]. split.
    + unfold doc_router. rewrite lookup_insert_eq. cbn [mbind option_bind routers set_routers].
      rewrite lookup_insert_ne by (unfold maintenance_router_name in *; congruence).
      rewrite lookup_insert_eq. reflexivity.
    + intros n Hn1 Hn2. unfold doc_router.
      rewrite lookup_insert_eq, Hp. cbn [mbind option_bind routers set_routers].
      rewrite Hrs. cbn [mbind option_bind].
      rewrite lookup_insert_ne by auto. rewrite lookup_insert_ne by auto. reflexivity.
  - eexists. split; [reflexivity|]. split.
    + unfold doc_router. rewrite lookup_insert_eq. cbn [mbind option_bind routers set_routers].
      rewrite lookup_insert_eq. reflexivity.
    + intros n Hn1 Hn2. unfold doc_router.
      rewrite lookup_insert_eq, Hp. cbn [mbind option_bind routers set_routers].
      rewrite Hrs. cbn [mbind option_bind].
      rewrite lookup_insert_ne by auto. reflexivity.
Qed.

Lemma ensure_routers_doc_router d d1 :
  ensure_routers "http" d = Some d1 ->
  forall n, doc_router "http" n d1 = doc_router "http" n d.
Proof.
  unfold ensure_routers, doc_router. intros H n.
  destruct (d !! "http") as [p0|] eqn:Hp0; simpl in H; [|discriminate].
  injection H as <-. destruct (routers p0) as [rs|] eqn:Er; [rewrite Hp0; reflexivity|].
  rewrite lookup_insert_eq. simpl. rewrite Er. reflexivity.
Qed.

Lemma str_app_cons (c : ascii) (s t : string) : String c s +:+ t = String c (s +:+ t).
Proof. reflexivity. Qed.

Lemma str_app_nil (t : string) : "" +:+ t = t.
Proof. reflexivity. Qed.

Lemma str_length_app (a b : string) :
  String.length (a +:+ b) = (String.length a + String.length b)%nat.
Proof.
  induction a as [|c a IH]; [reflexivity|].
  rewrite str_app_cons. simpl. rewrite IH. reflexivity.
Qed.

Lemma str_app_assoc (a b c : string) : a +:+ (b +:+ c) = (a +:+ b) +:+ c.
Proof.
  induction a as [|x a IH]; [reflexivity|].
  rewrite !str_app_cons, IH. reflexivity.
Qed.

Lemma str_suffix_eq (a b x y : string) :
  a +:+ x = b +:+ y -> String.length x = String.length y -> x = y.
Proof.
  revert b. induction a as [|c a IH]; intros [|c' b] H Hl.
  - exact H.
  - rewrite ?str_app_nil, ?str_app_cons in H. subst x. simpl in Hl.
    rewrite str_length_app in Hl. lia.
  - rewrite ?str_app_nil, ?str_app_cons in H. subst y. simpl in Hl.
    rewrite str_length_app in Hl. lia.
  - rewrite !str_app_cons in H. injection H as _ H. exact (IH b H Hl).
Qed.

(** A normal router name ends in [-router], a redirect twin in
    [-redirect]: the two never meet. *)
Lemma normal_router_name_not_redirect key key' g :
  normal_router_name key g <> maintenance_router_name key' +:+ "-redirect".
Proof.
  unfold normal_router_name. intros H.
  rewrite !str_app_assoc in H.
  change "-redirect" with ("-r" +:+ "edirect") in H.
  rewrite str_app_assoc in H.
  apply str_suffix_eq in H; [discriminate|reflexivity].
Qed.

(** C1: for an HTTP route group that reaches the assembler with its domain,
    the assembler first ensures the routers and services tables of the
    HTTP document, which keeps its routers; the maintenance emission then
    writes the maintenance router (host-only rule, priority 2000, the static
    maintenance service) and leaves every other router of the input
    document as it was, but for the maintenance router's redirect twin: in
    particular the group's normal router name keeps the entry it had in the
    input (unless the group is named [maintenance], when that name is the
    maintenance router). With [forced] mode the group's output is exactly
    that emission, whatever its targets; with [automatic] mode it is that
    emission iff no target is available, and normal routing otherwise; with
    maintenance mode off it is normal routing. *)
Theorem maintenance_decision (key : string) (g : Group.t) (d : Doc) :
  Group.enabled g = true -> truthy_b (Group.http g) = true ->
  truthy_s (Group.domainId g) = true -> truthy_s (Group.fullDomain g) = true ->
  is_Some (d !! "http") ->
  exists d2 dm,
    (ensure_routers "http" d ≫= ensure_services "http") = Some d2
    /\ (forall n, doc_router "http" n d2 = doc_router "http" n d)
    /\ emit_maintenance cfg key g d2 = Some dm
    /\ doc_router "http" (maintenance_router_name key) dm
       = Some (mkRouter [if Group.ssl g then https_entrypoint cfg else http_entrypoint cfg]
                 None (key +:+ "-maintenance-service") (Some (host_rule g)) (Some 2000)
                 (if Group.ssl g then Some (maintenance_tls cfg g) else None))
    /\ (forall n, n <> maintenance_router_name key ->
                  n <> maintenance_router_name key +:+ "-redirect" ->
                  doc_router "http" n dm = doc_router "http" n d)
    /\ (doc_router "http" (normal_router_name key g) dm
        = doc_router "http" (normal_router_name key g) d
        \/ normal_router_name key g = maintenance_router_name key)
    /\ (truthy_b (Group.maintenanceModeEnabled g) = true ->
        Group.maintenanceModeType g = Some "forced" ->
        process_group cfg createPathRewriteMiddleware parseHeaders key g d = Some dm)
    /\ (truthy_b (Group.maintenanceModeEnabled g) = true ->
        Group.maintenanceModeType g = Some "automatic" ->
        process_group cfg createPathRewriteMiddleware parseHeaders key g d
        = if bool_decide (availableServers (Group.targets g) = []) then Some dm
          else emit_normal cfg createPathRewriteMiddleware parseHeaders key g d2)
    /\ (truthy_b (Group.maintenanceModeEnabled g) = false ->
        process_group cfg createPathRewriteMiddleware parseHeaders key g d
        = emit_normal cfg createPathRewriteMiddleware parseHeaders key g d2).
Proof.
  intros Hen Hhttp Hdom Hfd Hsome.
  destruct (prepare_http_ok d Hsome)
    as (d1 & d2 & p & rs & ss & E1 & E2 & Hp & Hrs & Hss & H21).
  assert (H2d : forall n, doc_router "http" n d2 = doc_router "http" n d).
  { intros n. rewrite H21. apply ensure_routers_doc_router. exact E1. }
  destruct (emit_maintenance_spec key g d2 p rs ss Hp Hrs Hss) as (dm & Em & Hr & Hoth).
  assert (Hothd : forall n, n <> maintenance_router_name key ->
                  n <> maintenance_router_name key +:+ "-redirect" ->
                  doc_router "http" n dm = doc_router "http" n d).
  { intros n Hn1 Hn2. rewrite Hoth by assumption. apply H2d. }
  exists d2, dm. split; [rewrite E1; exact E2|]. split; [exact H2d|].
  split; [exact Em|]. split; [exact Hr|]. split; [exact Hothd|].
  split.
  { destruct (decide (normal_router_name key g = maintenance_router_name key)) as [Heq|Hne].
    - right. exact Heq.
    - left. apply Hothd; [exact Hne|apply normal_router_name_not_redirect]. }
  assert (Hpg : process_group cfg createPathRewriteMiddleware parseHeaders key g d
                = if showMaintenancePage g
                       (0 <? length (availableServers (Group.targets g)))%nat
                  then emit_maintenance cfg key g d2
                  else emit_normal cfg createPathRewriteMiddleware parseHeaders key g d2).
  { unfold process_group, process_http. rewrite Hen, Hhttp, Hdom, Hfd. simpl.
    rewrite E1. simpl. rewrite E2. reflexivity. }
  rewrite Hpg. unfold showMaintenancePage. split; [|split].
  - intros Hm Ht. rewrite Hm, Ht. rewrite bool_decide_eq_true_2 by reflexivity. exact Em.
  - intros Hm Ht. rewrite Hm, Ht.
    rewrite bool_decide_eq_false_2 by discriminate.
    rewrite bool_decide_eq_true_2 by reflexivity.
    destruct (availableServers (Group.targets g)) eqn:Ea.
    + rewrite bool_decide_eq_true_2 by reflexivity. exact Em.
    + rewrite bool_decide_eq_false_2 by discriminate. reflexivity.
  - intros Hm. rewrite Hm. reflexivity.
Qed.


(** *** The normal router and its priority *)

Lemma put_router_doc_router_eq proto n v d d' :
  put_router proto n v d = Some d' -> doc_router proto n d' = Some v.
Proof.
  unfold put_router, doc_router. intros H.
  destruct (d !! proto) as [q|] eqn:Eq; simpl in H; [|discriminate].
  destruct (routers q) as [rs|] eqn:Er; simpl in H; [|discriminate].
  injection H as <-. rewrite lookup_insert_eq. simpl. apply lookup_insert_eq.
Qed.

Lemma put_router_doc_router_ne proto n v d d' x :
  x <> n -> put_router proto n v d = Some d' -> doc_router proto x d' = doc_router proto x d.
Proof.
  unfold put_router, doc_router. intros Hx H.
  destruct (d !! proto) as [q|] eqn:Eq; simpl in H; [|discriminate].
  destruct (routers q) as [rs|] eqn:Er; simpl in H; [|discriminate].
  injection H as <-. rewrite lookup_insert_eq. simpl. rewrite Er. simpl.
  rewrite lookup_insert_ne by congruence. reflexivity.
Qed.

(** Writes that leave the routers of every family as they were. *)
Ltac keeps_routers H :=
  let q := fresh "q" in let Eq := fresh "Eq" in
  match type of H with
  | context [?d !! ?k] =>
      destruct (d !! k) as [q|] eqn:Eq; simpl in H; [|discriminate]
  end;
  repeat match type of H with
    | mbind _ ?o = Some _ =>
        let x := fresh "x" in destruct o as [x|]; simpl in H; [|discriminate]
    end;
  injection H as <-;
  try match goal with
    | |- doc_router _ _ (match ?o with Some _ => _ | None => _ end) = _ =>
        destruct o; [reflexivity|]
    end;
  unfold doc_router;
  match goal with
  | |- mbind _ (<[?k := _]> _ !! ?m) = _ =>
      destruct (decide (m = k)) as [->|?];
      [rewrite lookup_insert_eq, Eq; reflexivity
      |rewrite lookup_insert_ne by congruence; reflexivity]
  end.

Lemma put_service_doc_router proto n v d d' m x :
  put_service proto n v d = Some d' -> doc_router m x d' = doc_router m x d.
Proof. unfold put_service. intros H. keeps_routers H. Qed.

Lemma put_transport_doc_router proto n v d d' m x :
  put_transport proto n v d = Some d' -> doc_router m x d' = doc_router m x d.
Proof. unfold put_transport. intros H. keeps_routers H. Qed.

Lemma ensure_serversTransports_doc_router proto d d' m x :
  ensure_serversTransports proto d = Some d' -> doc_router m x d' = doc_router m x d.
Proof. unfold ensure_serversTransports. intros H. keeps_routers H. Qed.

Lemma emit_normal_router key g d d' :
  emit_normal cfg createPathRewriteMiddleware parseHeaders key g d = Some d' ->
  exists mws, doc_router "http" (normal_router_name key g) d'
    = Some (mkRouter [if Group.ssl g then https_entrypoint cfg else http_entrypoint cfg]
              (Some mws) (key +:+ "-" +:+ Group.name g +:+ "-service")
              (Some (router_rule g)) (Some (router_priority g))
              (if Group.ssl g then Some (normal_tls cfg g) else None)).
Proof.
  unfold emit_normal, normal_router_name. intros H.
  bind_step H. bind_step H. bind_step H.
  apply put_router_doc_router_eq in E1. eexists.
  set (rn := key +:+ "-" +:+ Group.name g +:+ "-router") in *.
  assert (Hneq : rn +:+ "-redirect" <> rn) by (apply string_append_neq; discriminate).
  bind_step H.
  assert (E4 : doc_router "http" rn d3 = doc_router "http" rn d2).
  { destruct (Group.ssl g); [|congruence].
    eapply put_router_doc_router_ne; [|exact E2]. congruence. }
  bind_step H. apply (put_service_doc_router _ _ _ _ _ "http" rn) in E3.
  destruct (truthy_s (Group.tlsServerName g)).
  - bind_step H. apply (ensure_serversTransports_doc_router _ _ _ "http" rn) in E5.
    bind_step H. apply (put_transport_doc_router _ _ _ _ _ "http" rn) in E6.
    bind_step H. apply (put_service_doc_router _ _ _ _ _ "http" rn) in H.
    rewrite H, E6, E5, E3, E4. exact E1.
  - injection H as <-. rewrite E3, E4. exact E1.
Qed.

(** C4: the priority of the normal router.  A priority override that is
    neither 0 (falsy) nor 100 is used verbatim.  Otherwise the priority is
    100, raised to 110 plus 5 (exact), 3 (prefix), 2 (regex) or 0 (other)
    when both the path and its match type are non-empty, and set to 1 when
    that path is exactly [/].  Hence without override exact > prefix >
    regex > no path, and path [/] with a match type gives 1; the router
    the normal branch writes carries this priority. *)
Theorem router_priority_rule (g : Group.t) :
  (Group.priority g <> 0 -> Group.priority g <> 100 ->
   router_priority g = Group.priority g)
  /\ ((Group.priority g = 0 \/ Group.priority g = 100) ->
      router_priority g =
      if truthy_s (Group.path g) && truthy_s (Group.pathMatchType g) then
        if bool_decide (Group.path g = Some "/") then 1
        else 100 + 10 + (if bool_decide (Group.pathMatchType g = Some "exact") then 5
                         else if bool_decide (Group.pathMatchType g = Some "prefix") then 3
                         else if bool_decide (Group.pathMatchType g = Some "regex") then 2
                         else 0)
      else 100)
  /\ (forall path, path <> "" -> path <> "/" ->
      (Group.priority g = 0 \/ Group.priority g = 100) ->
      router_priority (group_set_path g (Some path) (Some "exact"))
        > router_priority (group_set_path g (Some path) (Some "prefix"))
      /\ router_priority (group_set_path g (Some path) (Some "prefix"))
        > router_priority (group_set_path g (Some path) (Some "regex"))
      /\ router_priority (group_set_path g (Some path) (Some "regex"))
        > router_priority (group_set_path g None None)
      /\ router_priority (group_set_path g None None) = 100)
  /\ (forall pmt, truthy_s pmt = true ->
      (Group.priority g = 0 \/ Group.priority g = 100) ->
      router_priority (group_set_path g (Some "/") pmt) = 1)
  /\ (forall key d d',
      emit_normal cfg createPathRewriteMiddleware parseHeaders key g d = Some d' ->
      exists r, doc_router "http" (normal_router_name key g) d' = Some r
                /\ r_priority r = Some (router_priority g)).
Proof.
  split; [|split; [|split; [|split]]].
  - intros H0 H100. unfold router_priority.
    rewrite (proj2 (Z.eqb_neq _ _) H0), (proj2 (Z.eqb_neq _ _) H100). reflexivity.
  - intros [Hp|Hp]; unfold router_priority; rewrite Hp; reflexivity.
  - intros path Hne Hroot Hp.
    assert (Ht : truthy_s (Some path) = true)
      by (simpl; rewrite (proj2 (String.eqb_neq _ _) Hne); reflexivity).
    assert (Hr : bool_decide (Some path = Some "/") = false)
      by (apply bool_decide_eq_false_2; congruence).
    unfold router_priority, group_set_path; simpl Group.priority;
      simpl Group.path; simpl Group.pathMatchType.
    rewrite Ht, Hr.
    destruct Hp as [Hp|Hp]; rewrite Hp; vm_compute; repeat split; discriminate.
  - intros pmt Ht Hp. unfold router_priority, group_set_path; simpl Group.priority;
      simpl Group.path; simpl Group.pathMatchType.
    rewrite Ht. destruct Hp as [Hp|Hp]; rewrite Hp; reflexivity.
  - intros key d d' H. destruct (emit_normal_router key g d d' H) as [mws Hr].
    eexists. split; [exact Hr|reflexivity].
Qed.

(** C6: the process-wide [prefer_wildcard_cert] alone decides whether the
    TLS block of an HTTP route group, normal or maintenance, lists the
    wildcard domain: the route group carries no wildcard preference of the
    resource, so for every group the answer is the global default. *)
Theorem tls_wildcard_follows_global_default (g : Group.t) :
  domains (normal_tls cfg g)
  = (if truthy_b (prefer_wildcard_cert cfg) then Some [normal_wildCard g] else None)
  /\ domains (maintenance_tls cfg g)
     = (if truthy_b (prefer_wildcard_cert cfg) then Some [maintenance_wildCard g] else None).
Proof. split; reflexivity. Qed.

(** *** Route-group keys *)

Lemma NoDup_snoc {A} (l : list A) (x : A) : NoDup l -> ~ In x l -> NoDup (l ++ [x]).
Proof.
  intros Hl Hx. apply NoDup_app. split; [exact Hl|split; [|apply NoDup_singleton]].
  intros y Hy Hy'. apply list_elem_of_singleton in Hy'. subst y.
  apply Hx, list_elem_of_In, Hy.
Qed.

Lemma map_push_fst k t (m : ResourcesMap) : map fst (map_push k t m) = map fst m.
Proof.
  unfold map_push. rewrite map_map. apply map_ext. intros e.
  destruct (bool_decide _); reflexivity.
Qed.

Lemma map_has_false k (m : ResourcesMap) : map_has k m = false -> ~ In k (map fst m).
Proof.
  unfold map_has. intros H Hin. apply in_map_iff in Hin as [[k' g] [Hk Hin]].
  simpl in Hk. subst k'.
  assert (Ht : existsb (fun e => bool_decide (e.1 = k)) m = true).
  { apply existsb_exists. exists (k, g). split; [exact Hin|].
    apply bool_decide_eq_true_2. reflexivity. }
  congruence.
Qed.

Lemma map_has_true k (m : ResourcesMap) : map_has k m = true -> exists g, In (k, g) m.
Proof.
  unfold map_has. intros H. apply existsb_exists in H as [[k' g] [Hin Hk]].
  apply bool_decide_eq_true_1 in Hk. simpl in Hk. subst k'. eauto.
Qed.

Lemma In_map_push k t k' g (m : ResourcesMap) :
  In (k', g) m ->
  In (k', if bool_decide (k' = k) then push_target t g else g) (map_push k t m).
Proof.
  intros Hin. unfold map_push. apply in_map_iff. exists (k', g). split; [|exact Hin].
  simpl. destruct (bool_decide _); reflexivity.
Qed.

Lemma push_target_keeps t t' g :
  In t (Group.targets g) -> In t (Group.targets (push_target t' g)).
Proof. intros H. simpl. apply in_or_app. left. exact H. Qed.

Lemma map_push_in_group k t k' t' m : in_group k t m -> in_group k t (map_push k' t' m).
Proof.
  intros [g [Hin Ht]]. eexists. split; [apply In_map_push; exact Hin|].
  destruct (bool_decide _); [apply push_target_keeps|]; exact Ht.
Qed.

Lemma aggregate_row_in_group k t m r :
  in_group k t m -> in_group k t (aggregate_row sanitize validatePathRewriteConfig m r).
Proof.
  intros H. unfold aggregate_row.
  destruct (map_has _ _); [apply map_push_in_group; exact H|].
  destruct (validatePathRewriteConfig _ _ _ _); [|exact H].
  apply map_push_in_group. destruct H as [g [Hin Ht]].
  exists g. split; [apply in_or_app; left; exact Hin|exact Ht].
Qed.

Lemma aggregate_row_adds m r :
  validatePathRewriteConfig (Row.path r) (Row.pathMatchType r)
    (Row.rewritePath r) (Row.rewritePathType r) = true ->
  in_group (row_key sanitize r) (row_target r)
    (aggregate_row sanitize validatePathRewriteConfig m r).
Proof.
  intros Hv. unfold aggregate_row.
  destruct (map_has _ _) eqn:Eh.
  - destruct (map_has_true _ _ Eh) as [g Hin]. eexists. split.
    + apply In_map_push. exact Hin.
    + rewrite bool_decide_eq_true_2 by reflexivity. simpl.
      apply in_or_app. right. left. reflexivity.
  - rewrite Hv. eexists. split.
    + apply In_map_push. apply in_or_app. right. left. reflexivity.
    + rewrite bool_decide_eq_true_2 by reflexivity. simpl. left. reflexivity.
Qed.

Lemma fold_in_group k t rows m :
  in_group k t m ->
  in_group k t (fold_left (aggregate_row sanitize validatePathRewriteConfig) rows m).
Proof.
  revert m. induction rows as [|r rows IH]; simpl; intros m H; [exact H|].
  apply IH. apply aggregate_row_in_group. exact H.
Qed.

Lemma fold_NoDup rows m :
  NoDup (map fst m) ->
  NoDup (map fst (fold_left (aggregate_row sanitize validatePathRewriteConfig) rows m)).
Proof.
  revert m. induction rows as [|r rows IH]; simpl; intros m H; [exact H|].
  apply IH. unfold aggregate_row.
  destruct (map_has _ _) eqn:Eh; [rewrite map_push_fst; exact H|].
  destruct (validatePathRewriteConfig _ _ _ _); [|exact H].
  rewrite map_push_fst, map_app. apply NoDup_snoc; [exact H|].
  apply map_has_false. exact Eh.
Qed.

(** Aggregation makes one route group per computed key: the keys of
    the groups are pairwise distinct, two rows with the same resource and
    the same (path, pathMatchType, rewritePath, rewritePathType) get the
    same key, and every row that passes the path/rewrite validation has
    its target in the group of its key. *)
Theorem aggregate_one_group_per_key (rows : list Row.t) :
  NoDup (map fst (aggregate sanitize validatePathRewriteConfig rows))
  /\ (forall r1 r2, row_route r1 = row_route r2 ->
                    row_key sanitize r1 = row_key sanitize r2)
  /\ (forall r, In r rows ->
      validatePathRewriteConfig (Row.path r) (Row.pathMatchType r)
        (Row.rewritePath r) (Row.rewritePathType r) = true ->
      exists g, In (row_key sanitize r, g) (aggregate sanitize validatePathRewriteConfig rows)
                /\ In (row_target r) (Group.targets g)).
Proof.
  split; [|split].
  - apply fold_NoDup. constructor.
  - intros r1 r2 H. unfold row_route in H. injection H as H1 H2 H3 H4 H5.
    unfold row_key, row_mapKey, row_pathKey. rewrite H1, H2, H3, H4, H5. reflexivity.
  - intros r Hin Hv. apply in_split in Hin as (l1 & l2 & ->).
    unfold aggregate. rewrite fold_left_app. simpl.
    apply fold_in_group. apply aggregate_row_adds. exact Hv.
Qed.

End Proofs.

(* ------------------------------------------------------------------ *)
(** ** Witnesses and counterexamples on concrete inputs *)

Lemma getTraefikConfig_defines_redirect_middleware_witness :
  run_example rows_tcp_only = Some (default ∅ (run_example rows_tcp_only)) /\
  aggregate sanitize_example valid_example rows_tcp_only <> [] /\
  exists mw, doc_middleware "http" redirectHttpsMiddlewareName
               (default ∅ (run_example rows_tcp_only)) = Some mw.
Proof.
  split; [vm_compute; reflexivity|]. split; [vm_compute; discriminate|].
  apply (getTraefikConfig_defines_redirect_middleware cfg_example sanitize_example
           valid_example rewrite_example parse_example rows_tcp_only).
  - vm_compute. discriminate.
  - vm_compute. reflexivity.
Defined.

Lemma getTraefikConfig_empty_iff_no_groups_witness :
  aggregate sanitize_example valid_example [row_nodomain] <> [] /\
  run_example [row_nodomain] = Some initial_config_output.
Proof.
  split; [vm_compute; discriminate|].
  apply (getTraefikConfig_empty_iff_no_groups cfg_example sanitize_example
           valid_example rewrite_example parse_example [row_nodomain]).
  - vm_compute. discriminate.
  - vm_compute. repeat constructor.
Defined.

(** C9 counterexample: the only route group is an HTTP resource without a
    domain, so no group is eligible for emission, yet the result is not the
    empty object but the document carrying [http.middlewares]. *)
Lemma getTraefikConfig_all_skipped_not_empty :
  row_admitted 1 ["local"] true row_nodomain = true /\
  run_example [row_nodomain] = Some initial_config_output /\
  run_example [row_nodomain] <> Some ∅.
Proof.
  split; [vm_compute; reflexivity|]. split; [vm_compute; reflexivity|].
  vm_compute. intros H. discriminate H.
Qed.

(** C2 counterexample: a target on a site of another type is counted as not
    available, yet it passes the filter that builds the HTTP server list. *)
Lemma available_pred_differs_on_other_site_type :
  available_pred [target_other_site_type] target_other_site_type = false /\
  http_server_pred [target_other_site_type] target_other_site_type = true.
Proof. split; reflexivity. Qed.

Lemma backend_filter_site_online_fallback_witness :
  anySitesOnline targets_one_online = true /\
  ~ In (target_local 2 "10.0.0.2" false)
      (List.filter (http_server_pred targets_one_online) targets_one_online) /\
  anySitesOnline targets_all_offline = false /\
  List.filter (http_server_pred targets_all_offline) targets_all_offline
  = List.filter (http_server_pred []) targets_all_offline.
Proof.
  split; [reflexivity|]. split.
  - apply (proj2 (proj2 (proj1 (backend_filter_site_online_fallback targets_one_online)
                                eq_refl)) (target_local 2 "10.0.0.2" false) eq_refl).
  - split; [reflexivity|].
    apply (proj1 (proj2 (backend_filter_site_online_fallback targets_all_offline) eq_refl)).
Defined.

Lemma availability_matches_backend_list_witness :
  known_site_type (target_local 1 "10.0.0.1" true) = true /\
  available_pred targets_one_online (target_local 1 "10.0.0.1" true)
  = http_server_pred targets_one_online (target_local 1 "10.0.0.1" true) /\
  known_site_type target_other_site_type = false /\
  available_pred [target_other_site_type] target_other_site_type = false.
Proof.
  split; [reflexivity|]. split.
  - apply (proj1 (availability_matches_backend_list targets_one_online)). reflexivity.
  - split; [reflexivity|].
    apply (proj1 (proj1 (proj2 (availability_matches_backend_list [target_other_site_type]))
                    target_other_site_type eq_refl)).
Defined.

Lemma maintenance_decision_witness :
  exists dm,
    process_group cfg_example rewrite_example parse_example "1" (group_of row_forced)
      initial_config_output = Some dm
    /\ doc_router "http" (maintenance_router_name "1") dm
       = Some (mkRouter ["websecure"] None "1-maintenance-service"
                 (Some "Host(`example.com`)") (Some 2000)
                 (Some (maintenance_tls cfg_example (group_of row_forced)))).
Proof.
  destruct (maintenance_decision cfg_example rewrite_example parse_example "1"
              (group_of row_forced) initial_config_output eq_refl eq_refl eq_refl eq_refl
              ltac:(eexists; reflexivity)) as (d2 & dm & _ & _ & _ & Hr & _ & _ & Hf & _).
  exists dm. split; [apply Hf; reflexivity|exact Hr].
Defined.

Lemma router_priority_rule_witness :
  router_priority (group_of row_root_override) = 50 /\
  router_priority (group_set_path (group_of row_example) (Some "/api") (Some "exact"))
  > router_priority (group_set_path (group_of row_example) (Some "/api") (Some "prefix")).
Proof.
  split.
  - apply (proj1 (router_priority_rule cfg_example rewrite_example parse_example
                    (group_of row_root_override))); vm_compute; discriminate.
  - apply (proj1 (proj1 (proj2 (proj2 (router_priority_rule cfg_example rewrite_example
             parse_example (group_of row_example)))) "/api" ltac:(discriminate)
             ltac:(discriminate) (or_intror eq_refl))).
Defined.

(** C4 counterexample: a route group with the catch-all path [/] and a
    priority override of 50 gets priority 50, not 1, and so does the router
    written for it. *)
Lemma root_path_with_override_priority :
  Group.path (group_of row_root_override) = Some "/" /\
  Group.pathMatchType (group_of row_root_override) = Some "prefix" /\
  router_priority (group_of row_root_override) = 50 /\
  option_map r_priority
    (doc_router "http" "1-/-prefix-app-router" (default ∅ (run_example [row_root_override])))
  = Some (Some 50).
Proof. repeat split; vm_compute; reflexivity. Qed.

(** C5: the TCP service of a resource with two targets on the same
    [ip:port] lists that address twice, while the HTTP service of a
    resource with two targets on the same URL lists it once. *)
Lemma tcp_service_keeps_duplicate_endpoints :
  option_map servers
    (doc_service "tcp" "2-db-service" (default ∅ (run_example rows_tcp_same_endpoint)))
  = Some [Some (Address "10.0.0.7:5432"); Some (Address "10.0.0.7:5432")]
  /\ option_map servers
       (doc_service "http" "1-app-service" (default ∅ (run_example rows_http_same_endpoint)))
     = Some [Some (Url "http://10.0.0.5:8080")].
Proof. split; vm_compute; reflexivity. Qed.

(** C7: for the subdomain [app] of the two-label domain [app.localhost],
    the maintenance router's TLS block asks for [*.localhost] while the
    normal router's asks for [*.app.localhost]; and a certificate resolver
    of blanks falls back to the global resolver for the maintenance router
    but gives the empty resolver name to the normal router. *)
Lemma maintenance_tls_differs_from_normal_tls :
  maintenance_tls cfg_example (group_of (row_two_labels (Some true)))
  = mkTls (Some "letsencrypt") (Some ["*.localhost"]) /\
  normal_tls cfg_example (group_of (row_two_labels (Some true)))
  = mkTls (Some "letsencrypt") (Some ["*.app.localhost"]) /\
  option_map tls (doc_router "http" (maintenance_router_name "1")
                    (default ∅ (run_example [row_two_labels (Some true)])))
  = Some (Some (mkTls (Some "letsencrypt") (Some ["*.localhost"]))) /\
  option_map tls (doc_router "http" "1-app-router"
                    (default ∅ (run_example [row_two_labels (Some false)])))
  = Some (Some (mkTls (Some "letsencrypt") (Some ["*.app.localhost"]))) /\
  certResolver (maintenance_tls cfg_example (group_of row_blank_resolver)) = Some "letsencrypt" /\
  certResolver (normal_tls cfg_example (group_of row_blank_resolver)) = Some "".
Proof. repeat split; vm_compute; reflexivity. Qed.

(** C8: the key meant to be unique per path/rewrite configuration is the
    non-empty fields joined with [-], which collides: two rows of resource
    1 with the same path but different rewrite configurations ([/v1] of
    type [prefix], and [/v1-prefix] with no type) get the same key whatever
    [sanitize] does, and aggregation merges them into a single route
    group. *)
Lemma aggregate_merges_distinct_routes :
  row_route row_rewrite_typed <> row_route row_rewrite_untyped /\
  (forall san, row_key san row_rewrite_typed = row_key san row_rewrite_untyped) /\
  length (aggregate sanitize_example valid_example [row_rewrite_typed; row_rewrite_untyped])
  = 1%nat.
Proof.
  split; [vm_compute; discriminate|]. split; [|vm_compute; reflexivity].
  intros san. unfold row_key, row_mapKey, row_pathKey. cbn.
  destruct (str_or (san (Some "/api")) "") as [|c t]; cbn; reflexivity.
Qed.

Lemma aggregate_one_group_per_key_witness :
  exists g,
    In (row_key sanitize_example row_rewrite_typed, g)
       (aggregate sanitize_example valid_example [row_rewrite_typed])
    /\ In (row_target row_rewrite_typed) (Group.targets g).
Proof.
  apply (proj2 (proj2 (aggregate_one_group_per_key sanitize_example valid_example
                         [row_rewrite_typed])) row_rewrite_typed).
  - left. reflexivity.
  - reflexivity.
Defined.

(* ------------------------------------------------------------------ *)
(** ** The maintenance page *)

Lemma count_char_app (c : ascii) (a b : string) :
  count_char c (a +:+ b) = (count_char c a + count_char c b)%nat.
Proof. induction a as [|x a IH]; simpl; [reflexivity|]. rewrite IH. lia. Qed.

Lemma escape_char_markup (c x : ascii) :
  In x markup_chars -> count_char x (escape_char c) = 0%nat.
Proof.
  unfold markup_chars, escape_char.
  intros Hx. destruct Hx as [<-|[<-|[<-|[<-|[]]]]];
  repeat (match goal with |- context [ascii_eqb c ?y] =>
            let E := fresh "E" in destruct (ascii_eqb c y) eqn:E; [reflexivity|] end);
  cbn [count_char];
  repeat match goal with H : ascii_eqb c ?y = false |- context [ascii_eqb c ?y] =>
           rewrite H end;
  reflexivity.
Qed.

Lemma escapeHtml_markup (s : string) (x : ascii) :
  In x markup_chars -> count_char x (escapeHtml s) = 0%nat.
Proof.
  intros Hx. induction s as [|c s IH]; [reflexivity|].
  simpl. rewrite count_char_app, escape_char_markup, IH by exact Hx. reflexivity.
Qed.

Lemma prefix_nil (t : string) : String.prefix "" t = true.
Proof. destruct t; reflexivity. Qed.

Lemma substring_whole (s : string) : String.substring 0 (String.length s) s = s.
Proof. induction s as [|c s IH]; simpl; [reflexivity|]. rewrite IH. reflexivity. Qed.

Lemma html_unescape_escapeHtml (s : string) (n : nat) :
  (String.length (escapeHtml s) <= n)%nat -> html_unescape n (escapeHtml s) = s.
Proof.
  revert n. induction s as [|c r IH]; intros n Hn.
  - destruct n; reflexivity.
  - cbn [escapeHtml] in *. unfold escape_char in *.
    destruct n as [|n].
    { destruct (ascii_eqb c _); simpl in Hn; [lia|].
      repeat (destruct (ascii_eqb c _); simpl in Hn; [lia|]). simpl in Hn. lia. }
    destruct (ascii_eqb c "&"%char) eqn:E1;
      [apply Ascii.eqb_eq in E1; subst c; rewrite ?str_app_cons, str_app_nil in *; cbn in *;
       rewrite ?prefix_nil, Nat.sub_0_r, substring_whole, IH by lia; reflexivity|].
    destruct (ascii_eqb c "<"%char) eqn:E2;
      [apply Ascii.eqb_eq in E2; subst c; rewrite ?str_app_cons, str_app_nil in *; cbn in *;
       rewrite ?prefix_nil, Nat.sub_0_r, substring_whole, IH by lia; reflexivity|].
    destruct (ascii_eqb c ">"%char) eqn:E3;
      [apply Ascii.eqb_eq in E3; subst c; rewrite ?str_app_cons, str_app_nil in *; cbn in *;
       rewrite ?prefix_nil, Nat.sub_0_r, substring_whole, IH by lia; reflexivity|].
    destruct (ascii_eqb c "034"%char) eqn:E4;
      [apply Ascii.eqb_eq in E4; subst c; rewrite ?str_app_cons, str_app_nil in *; cbn in *;
       rewrite ?prefix_nil, Nat.sub_0_r, substring_whole, IH by lia; reflexivity|].
    destruct (ascii_eqb c "'"%char) eqn:E5;
      [apply Ascii.eqb_eq in E5; subst c; rewrite ?str_app_cons, str_app_nil in *; cbn in *;
       rewrite ?prefix_nil, Nat.sub_0_r, substring_whole, IH by lia; reflexivity|].
    rewrite str_app_cons, str_app_nil in *. cbn [html_unescape]. rewrite E1.
    rewrite IH; [reflexivity|]. cbn in Hn. lia.
Qed.

Lemma escapeHtml_nonempty (s : string) : s <> "" -> escapeHtml s <> "".
Proof.
  destruct s as [|c s]; [congruence|]. intros _. simpl. unfold escape_char.
  repeat (destruct (ascii_eqb c _); [discriminate|]). discriminate.
Qed.

Lemma prefix_app (e r b : string) :
  String.prefix e r = true -> String.prefix e (r +:+ b) = true.
Proof.
  revert r. induction e as [|x e IH]; intros r H; [apply prefix_nil|].
  destruct r as [|y r]; [simpl in H; discriminate|].
  rewrite str_app_cons. simpl in *.
  destruct (ascii_dec x y); [apply IH; exact H|discriminate].
Qed.

Lemma amps_start_entities_app (a b : string) :
  amps_start_entities a = true -> amps_start_entities b = true ->
  amps_start_entities (a +:+ b) = true.
Proof.
  intros Ha Hb. induction a as [|c a IH]; [exact Hb|].
  rewrite str_app_cons. cbn [amps_start_entities] in *. apply andb_prop in Ha as [Hc Ha].
  rewrite (IH Ha), andb_true_r.
  apply orb_prop in Hc as [Hc|Hc]; [rewrite Hc; reflexivity|].
  apply orb_true_intro. right.
  apply existsb_exists in Hc as (e & He & Hp). apply existsb_exists.
  exists e. split; [exact He|]. apply prefix_app. exact Hp.
Qed.

Lemma escape_char_amps (c : ascii) : amps_start_entities (escape_char c) = true.
Proof.
  unfold escape_char.
  destruct (ascii_eqb c "&"%char) eqn:E; [reflexivity|].
  destruct (ascii_eqb c "<"%char); [reflexivity|].
  destruct (ascii_eqb c ">"%char); [reflexivity|].
  destruct (ascii_eqb c "034"%char); [reflexivity|].
  destruct (ascii_eqb c "'"%char); [reflexivity|].
  unfold amps_start_entities. rewrite E. reflexivity.
Qed.

(** [escapeHtml] never outputs a less-than, greater-than, double quote or
    single quote character, and every ampersand it outputs starts one of
    the references [&amp;], [&lt;], [&gt;], [&quot;], [&#039;]: escaped
    text can neither open or close a tag, nor end an attribute value, nor
    be read back as a reference it did not write. *)
Theorem escapeHtml_no_markup_chars (text : string) :
  (forall c, In c markup_chars -> count_char c (escapeHtml text) = 0%nat)
  /\ amps_start_entities (escapeHtml text) = true.
Proof.
  split; [intros c; apply escapeHtml_markup|].
  induction text as [|c r IH]; [reflexivity|].
  simpl. apply amps_start_entities_app; [apply escape_char_amps|exact IH].
Qed.

(** [escapeHtml] is injective: two different texts are never escaped to
    the same string, so the page shows exactly the text it was given. *)
Theorem escapeHtml_injective (s1 s2 : string) :
  escapeHtml s1 = escapeHtml s2 -> s1 = s2.
Proof.
  intros H.
  transitivity (html_unescape (String.length (escapeHtml s1)) (escapeHtml s1)).
  - symmetry. apply html_unescape_escapeHtml. lia.
  - rewrite H. apply html_unescape_escapeHtml. lia.
Qed.

(** The less-than, greater-than and quote characters of the maintenance
    page are those of the template: whatever title, message and estimated
    time it is given, the page has as many of each as the template alone,
    with the estimated-time block exactly when the estimated time is
    neither null nor empty. *)
Theorem generateMaintenanceHTML_markup_from_template
    (title message estimatedTime : option string) (c : ascii) :
  In c markup_chars ->
  count_char c (generateMaintenanceHTML title message estimatedTime)
  = count_char c (maintenance_template (truthy_s estimatedTime)).
Proof.
  intros Hc. unfold generateMaintenanceHTML, maintenance_template.
  assert (He : truthy_s (if truthy_s estimatedTime
                         then Some (escapeHtml (js_str_opt estimatedTime)) else None)
               = truthy_s estimatedTime).
  { destruct estimatedTime as [s|]; [|reflexivity]. simpl.
    destruct (String.eqb s "") eqn:Es; [reflexivity|]. simpl.
    apply String.eqb_neq in Es. apply String.eqb_neq in Es.
    destruct (String.eqb (escapeHtml s) "") eqn:E'; [|reflexivity].
    apply String.eqb_eq in E'. apply escapeHtml_nonempty in E'; [contradiction|].
    apply String.eqb_neq. exact Es. }
  rewrite He. repeat rewrite count_char_app.
  rewrite !(escapeHtml_markup _ c Hc).
  destruct (truthy_s estimatedTime) eqn:Et.
  - destruct estimatedTime as [s|]; [|discriminate]. simpl js_str_opt.
    rewrite !count_char_app, (escapeHtml_markup _ c Hc). lia.
  - lia.
Qed.

Lemma escapeHtml_no_markup_chars_witness :
  count_char "<"%char (escapeHtml "<script>alert(1)</script>") = 0%nat
  /\ amps_start_entities (escapeHtml "Tom & Jerry &amp; co") = true.
Proof.
  split.
  - apply (proj1 (escapeHtml_no_markup_chars "<script>alert(1)</script>")). left. reflexivity.
  - exact (proj2 (escapeHtml_no_markup_chars "Tom & Jerry &amp; co")).
Defined.

Lemma generateMaintenanceHTML_markup_from_template_witness :
  count_char "<"%char
    (generateMaintenanceHTML (Some "<b>Down</b>") (Some "<img src=x>") (Some "2h"))
  = count_char "<"%char (maintenance_template true).
Proof. apply generateMaintenanceHTML_markup_from_template. left. reflexivity. Defined.

(* ------------------------------------------------------------------ *)
(** ** The HTTP server list (lines 682-737) *)

Lemma filter_index_In {A} (p : A -> Z -> bool) (l : list A) (i : Z) (x : A) :
  In x (filter_index p l i) -> In x l /\ exists j, i <= j /\ p x j = true.
Proof.
  revert i. induction l as [|y l IH]; intros i; simpl; [contradiction|].
  destruct (p y i) eqn:Ep; simpl.
  - intros [<-|H]; [split; [left; reflexivity|exists i; split; [lia|exact Ep]]|].
    destruct (IH (i + 1) H) as [Hin (j & Hj & Ej)].
    split; [right; exact Hin|exists j; split; [lia|exact Ej]].
  - intros H. destruct (IH (i + 1) H) as [Hin (j & Hj & Ej)].
    split; [right; exact Hin|exists j; split; [lia|exact Ej]].
Qed.

Lemma filter_index_nth {A} (p : A -> Z -> bool) (l : list A) (i : Z) (j : nat) (x : A) :
  nth_error l j = Some x -> p x (i + Z.of_nat j) = true -> In x (filter_index p l i).
Proof.
  revert i j. induction l as [|y l IH]; intros i [|j] Hj Hp; simpl in *; try discriminate.
  - injection Hj as ->. rewrite Z.add_0_r in Hp. rewrite Hp. left. reflexivity.
  - replace (i + Z.of_nat (S j)) with (i + 1 + Z.of_nat j) in Hp by lia.
    destruct (p y i); [right|]; exact (IH (i + 1) j Hj Hp).
Qed.

Lemma filter_index_sublist {A} (p : A -> Z -> bool) (l : list A) (i : Z) :
  filter_index p l i `sublist_of` l.
Proof.
  revert i. induction l as [|x l IH]; intros i; simpl; [constructor|].
  destruct (p x i); constructor; apply IH.
Qed.

Lemma filter_index_NoDup {A B} (key : A -> B) (F : A -> Z) (l : list A) (i : Z) :
  0 <= i -> (forall x y, key x = key y -> 0 <= F x -> 0 <= F y -> F x = F y) ->
  NoDup (map key (filter_index (fun x j => Z.eqb (F x) j) l i)).
Proof.
  intros Hi HF. revert i Hi. induction l as [|x l IH]; intros i Hi; simpl; [constructor|].
  destruct (Z.eqb_spec (F x) i) as [Ex|Ex]; [|apply IH; lia].
  simpl. apply NoDup_cons_2; [|apply IH; lia].
  intros Hin. apply list_elem_of_In, in_map_iff in Hin as (y & Hy & Hyin).
  apply filter_index_In in Hyin as [_ (j & Hj & Ej)]. apply Z.eqb_eq in Ej.
  assert (F y = F x) by (apply HF; auto; lia). lia.
Qed.

Lemma findIndex_url_same (v w : option Server) (a : list (option Server)) (i : Z) :
  v <> None -> w <> None -> server_url v = server_url w ->
  findIndex_url v a i = findIndex_url w a i.
Proof.
  intros Hv Hw Hs. revert i. induction a as [|t a IH]; intros i; simpl; [reflexivity|].
  destruct t, v, w; try congruence. rewrite Hs. destruct (bool_decide _); auto.
Qed.

Lemma findIndex_url_found (v : option Server) (a : list (option Server)) (i : Z) :
  In v a -> v <> None ->
  exists j w, findIndex_url v a i = i + Z.of_nat j /\ nth_error a j = Some w
              /\ w <> None /\ server_url w = server_url v.
Proof.
  intros Hin Hv. revert i. induction a as [|t a IH]; intros i; [contradiction|].
  simpl. destruct t as [x|], v as [y|]; try congruence.
  - destruct (bool_decide (server_url (Some x) = server_url (Some y))) eqn:Eb.
    + apply bool_decide_eq_true_1 in Eb.
      exists 0%nat, (Some x). split; [simpl; lia|]. split; [reflexivity|].
      split; [discriminate|exact Eb].
    + destruct Hin as [Hxy|Hin].
      * rewrite Hxy, bool_decide_eq_true_2 in Eb by reflexivity. discriminate.
      * destruct (IH Hin (i + 1)) as (j & w & Ej & Hj & Hw & Hs).
        exists (S j), w. repeat split; auto. rewrite Ej. lia.
  - destruct Hin as [Hxy|Hin]; [congruence|].
    destruct (IH Hin (i + 1)) as (j & w & Ej & Hj & Hw & Hs).
    exists (S j), w. repeat split; auto. rewrite Ej. lia.
Qed.

(** X5: the deduplication of the HTTP server entries keeps a subsequence of
    its input in the input's order, drops every [undefined] entry, and keeps
    no two entries with the same [url]. *)
Theorem dedup_servers_distinct (a : list (option Server)) :
  dedup_servers a `sublist_of` a
  /\ ~ In None (dedup_servers a)
  /\ NoDup (map server_url (dedup_servers a)).
Proof.
  unfold dedup_servers. split; [apply filter_index_sublist|split].
  - intros Hin. apply filter_index_In in Hin as [_ (j & Hj & Ej)].
    rewrite findIndex_url_undefined in Ej. apply Z.eqb_eq in Ej. lia.
  - apply filter_index_NoDup; [lia|]. intros x y Hxy Hx Hy.
    apply findIndex_url_same; auto; intros ->; rewrite findIndex_url_undefined in *; lia.
Qed.

(** X6: every target that passes the HTTP backend filter and whose site is
    local, wireguard or newt has its [url] entry in the emitted server list:
    the deduplication drops only repeats. *)
Theorem http_servers_complete (targets : list Target.t) (t : Target.t) :
  In t targets -> http_server_pred targets t = true -> known_site_type t = true ->
  In (http_endpoint t) (http_servers targets).
Proof.
  intros Hin Hp Hk.
  set (a := map http_endpoint (List.filter (http_server_pred targets) targets)).
  assert (Ha : In (http_endpoint t) a)
    by (apply in_map, filter_In; auto).
  assert (Hd : http_endpoint t <> None)
    by (intros H; apply http_endpoint_undefined_iff in H; congruence).
  destruct (findIndex_url_found (http_endpoint t) a 0 Ha Hd) as (j & w & Ej & Hj & Hw & Hs).
  assert (Hwt : w = http_endpoint t).
  { apply nth_error_In in Hj. unfold a in Hj.
    apply in_map_iff in Hj as (t' & <- & _).
    revert Hs Hw Hd. unfold http_endpoint, server_url.
    destruct (is_local_or_wireguard (Target.site t')), (is_local_or_wireguard (Target.site t)),
      (is_newt (Target.site t')), (is_newt (Target.site t)); congruence. }
  subst w. unfold http_servers, dedup_servers. fold a.
  eapply filter_index_nth; [exact Hj|]. simpl. rewrite Ej. apply Z.eqb_refl.
Qed.

(* ------------------------------------------------------------------ *)
(** ** How the assembler changes the document *)

Section Assembler.

Variable cfg : TraefikConfig.
Variable sanitize : option string -> option string.
Variable validatePathRewriteConfig :
  option string -> option string -> option string -> option string -> bool.
Variable createPathRewriteMiddleware :
  string -> string -> string -> string -> string ->
  option (list (string * Middleware) * option (list string)).
Variable parseHeaders : string -> option (list (string * string)).

(** Destructs the first fallible step of a chain [x ← e; k = Some _]. *)
Ltac bind_step H :=
  match type of H with
  | mbind _ ?e = Some _ =>
      let E := fresh "E" in
      lazymatch type of e with
      | option (_ * _) =>
          let a := fresh "d" in let b := fresh "mws" in
          destruct e as [[a b]|] eqn:E; simpl in H; [|discriminate]
      | _ =>
          let a := fresh "d" in
          destruct e as [a|] eqn:E; simpl in H; [|discriminate]
      end
  end.

(** The same, with the names of the result and of its equation given. *)
Ltac bind_as H a E :=
  match type of H with
  | mbind _ ?e = Some _ =>
      lazymatch type of e with
      | option (_ * _) =>
          let b := fresh "mws" in destruct e as [[a b]|] eqn:E; simpl in H; [|discriminate]
      | _ => destruct e as [a|] eqn:E; simpl in H; [|discriminate]
      end
  end.

Lemma pc_le_refl p : pc_le p p.
Proof. unfold pc_le. tauto. Qed.

Lemma pc_le_trans p1 p2 p3 : pc_le p1 p2 -> pc_le p2 p3 -> pc_le p1 p3.
Proof. unfold pc_le. tauto. Qed.

Lemma grows_at_refl proto d : grows_at proto d d.
Proof. split; [intros k p Hk; exists p; split; [exact Hk|apply pc_le_refl]|reflexivity]. Qed.

Lemma grows_at_trans proto d1 d2 d3 :
  grows_at proto d1 d2 -> grows_at proto d2 d3 -> grows_at proto d1 d3.
Proof.
  intros [H1 F1] [H2 F2]. split.
  - intros k p Hk. destruct (H1 k p Hk) as (p2 & Hk2 & L2).
    destruct (H2 k p2 Hk2) as (p3 & Hk3 & L3).
    exists p3. split; [exact Hk3|eapply pc_le_trans; eauto].
  - intros k Hk. rewrite F2, F1 by exact Hk. reflexivity.
Qed.

Lemma grows_at_insert proto p' d :
  (forall p, d !! proto = Some p -> pc_le p p') -> grows_at proto d (<[proto := p']> d).
Proof.
  intros Hp. split.
  - intros k p Hk. destruct (decide (k = proto)) as [->|Hne].
    + rewrite lookup_insert_eq. exists p'. auto.
    + rewrite lookup_insert_ne by congruence. exists p. split; [exact Hk|apply pc_le_refl].
  - intros k Hk. apply lookup_insert_ne. congruence.
Qed.

Ltac pc_le_tac :=
  unfold pc_le; cbn [routers services middlewares serversTransports
                     set_routers set_services set_middlewares set_serversTransports];
  repeat split; intros ?; first [assumption | eexists; reflexivity].

(** One write [config_output[proto].<map>[name] = v] or one
    [if (!config_output[proto].<map>) ... = {}] that succeeds. *)
Ltac grows_tac :=
  let q := fresh "q" in let Eq := fresh "Eq" in let H := fresh "H" in
  intros H;
  match type of H with
  | context [?d !! ?k] => destruct (d !! k) as [q|] eqn:Eq; simpl in H; [|discriminate]
  end;
  repeat match type of H with
    | mbind _ ?o = Some _ =>
        let x := fresh "x" in destruct o as [x|]; simpl in H; [|discriminate]
    end;
  injection H as <-;
  try match goal with
    | |- grows_at _ _ (match ?o with Some _ => _ | None => _ end) =>
        destruct o; [apply grows_at_refl|]
    end;
  apply grows_at_insert; intros ? Hp; rewrite Eq in Hp; injection Hp as <-; pc_le_tac.

Lemma put_router_grows proto n v d d' : put_router proto n v d = Some d' -> grows_at proto d d'.
Proof. unfold put_router. grows_tac. Qed.
Lemma put_service_grows proto n v d d' : put_service proto n v d = Some d' -> grows_at proto d d'.
Proof. unfold put_service. grows_tac. Qed.
Lemma put_middleware_grows proto n v d d' :
  put_middleware proto n v d = Some d' -> grows_at proto d d'.
Proof. unfold put_middleware. grows_tac. Qed.
Lemma put_transport_grows proto n v d d' :
  put_transport proto n v d = Some d' -> grows_at proto d d'.
Proof. unfold put_transport. grows_tac. Qed.
Lemma ensure_routers_grows proto d d' : ensure_routers proto d = Some d' -> grows_at proto d d'.
Proof. unfold ensure_routers. grows_tac. Qed.
Lemma ensure_services_grows proto d d' : ensure_services proto d = Some d' -> grows_at proto d d'.
Proof. unfold ensure_services. grows_tac. Qed.
Lemma ensure_middlewares_grows proto d d' :
  ensure_middlewares proto d = Some d' -> grows_at proto d d'.
Proof. unfold ensure_middlewares. grows_tac. Qed.
Lemma ensure_serversTransports_grows proto d d' :
  ensure_serversTransports proto d = Some d' -> grows_at proto d d'.
Proof. unfold ensure_serversTransports. grows_tac. Qed.

Lemma grows_at_lookup proto d d' k p :
  grows_at proto d d' -> d !! k = Some p -> exists p', d' !! k = Some p' /\ pc_le p p'.
Proof. intros [H _]. apply H. Qed.

(** The writes succeed once their family and table exist. *)
Lemma put_router_some proto n v d p :
  d !! proto = Some p -> is_Some (routers p) -> is_Some (put_router proto n v d).
Proof. unfold put_router. intros Hp [x Hx]. rewrite Hp. simpl. rewrite Hx. eexists. reflexivity. Qed.
Lemma put_service_some proto n v d p :
  d !! proto = Some p -> is_Some (services p) -> is_Some (put_service proto n v d).
Proof. unfold put_service. intros Hp [x Hx]. rewrite Hp. simpl. rewrite Hx. eexists. reflexivity. Qed.
Lemma put_middleware_some proto n v d p :
  d !! proto = Some p -> is_Some (middlewares p) -> is_Some (put_middleware proto n v d).
Proof. unfold put_middleware. intros Hp [x Hx]. rewrite Hp. simpl. rewrite Hx. eexists. reflexivity. Qed.
Lemma put_transport_some proto n v d p :
  d !! proto = Some p -> is_Some (serversTransports p) -> is_Some (put_transport proto n v d).
Proof. unfold put_transport. intros Hp [x Hx]. rewrite Hp. simpl. rewrite Hx. eexists. reflexivity. Qed.

Lemma ensure_routers_some proto d :
  is_Some (d !! proto) ->
  exists d' p', ensure_routers proto d = Some d' /\ d' !! proto = Some p' /\ is_Some (routers p').
Proof.
  unfold ensure_routers. intros [p Hp]. rewrite Hp. simpl. destruct (routers p) eqn:E.
  - exists d, p. rewrite E. eauto.
  - eexists _, _. split; [reflexivity|]. rewrite lookup_insert_eq. split; [reflexivity|].
    eexists. reflexivity.
Qed.
Lemma ensure_services_some proto d :
  is_Some (d !! proto) ->
  exists d' p', ensure_services proto d = Some d' /\ d' !! proto = Some p' /\ is_Some (services p').
Proof.
  unfold ensure_services. intros [p Hp]. rewrite Hp. simpl. destruct (services p) eqn:E.
  - exists d, p. rewrite E. eauto.
  - eexists _, _. split; [reflexivity|]. rewrite lookup_insert_eq. split; [reflexivity|].
    eexists. reflexivity.
Qed.
Lemma ensure_middlewares_some proto d :
  is_Some (d !! proto) ->
  exists d' p', ensure_middlewares proto d = Some d' /\ d' !! proto = Some p'
                /\ is_Some (middlewares p').
Proof.
  unfold ensure_middlewares. intros [p Hp]. rewrite Hp. simpl. destruct (middlewares p) eqn:E.
  - exists d, p. rewrite E. eauto.
  - eexists _, _. split; [reflexivity|]. rewrite lookup_insert_eq. split; [reflexivity|].
    eexists. reflexivity.
Qed.
Lemma ensure_serversTransports_some proto d :
  is_Some (d !! proto) ->
  exists d' p', ensure_serversTransports proto d = Some d' /\ d' !! proto = Some p'
                /\ is_Some (serversTransports p').
Proof.
  unfold ensure_serversTransports. intros [p Hp]. rewrite Hp. simpl.
  destruct (serversTransports p) eqn:E.
  - exists d, p. rewrite E. eauto.
  - eexists _, _. split; [reflexivity|]. rewrite lookup_insert_eq. split; [reflexivity|].
    eexists. reflexivity.
Qed.

Lemma fold_put_middleware_grows (defs : list (string * Middleware)) d d' :
  fold_left (fun acc nm => acc ≫= put_middleware "http" nm.1 nm.2) defs (Some d) = Some d' ->
  grows_at "http" d d'.
Proof.
  revert d. induction defs as [|nm defs IH]; simpl; intros d H.
  - injection H as <-. apply grows_at_refl.
  - destruct (put_middleware "http" nm.1 nm.2 d) as [d1|] eqn:E1;
      [|rewrite fold_bind_None in H; discriminate].
    eapply grows_at_trans; [eapply put_middleware_grows; exact E1|]. apply IH. exact H.
Qed.

Lemma fold_put_middleware_some (defs : list (string * Middleware)) d p :
  d !! "http" = Some p -> is_Some (middlewares p) ->
  is_Some (fold_left (fun acc nm => acc ≫= put_middleware "http" nm.1 nm.2) defs (Some d)).
Proof.
  revert d p. induction defs as [|nm defs IH]; simpl; intros d p Hp Hm; [eexists; reflexivity|].
  destruct (put_middleware_some "http" nm.1 nm.2 d p Hp Hm) as [d1 E1]. rewrite E1.
  destruct (grows_at_lookup _ _ _ _ _ (put_middleware_grows _ _ _ _ _ E1) Hp)
    as (p1 & Hp1 & (_ & _ & L & _)).
  eapply IH; [exact Hp1|]. apply L, Hm.
Qed.

Lemma rewrite_step_grows key g d mws d' mws' :
  rewrite_step createPathRewriteMiddleware key g d mws = Some (d', mws') ->
  grows_at "http" d d' /\ exists extra, mws' = (mws ++ extra)%list.
Proof.
  unfold rewrite_step. intros H.
  assert (Hid : grows_at "http" d d /\ exists extra, mws = (mws ++ extra)%list)
    by (split; [apply grows_at_refl|exists []; rewrite app_nil_r; reflexivity]).
  destruct (Group.rewritePath g), (Group.path g); try (injection H as <- <-; exact Hid).
  destruct (truthy_s (Group.pathMatchType g) && truthy_s (Group.rewritePathType g));
    [|injection H as <- <-; exact Hid].
  match type of H with context [createPathRewriteMiddleware ?a ?b ?c ?e ?f] =>
    destruct (createPathRewriteMiddleware a b c e f) as [[defs chain]|] end;
    [|injection H as <- <-; exact Hid].
  bind_step H. bind_step H. injection H as <- <-. split; [|eexists; reflexivity].
  eapply grows_at_trans; [eapply ensure_middlewares_grows; exact E|].
  eapply fold_put_middleware_grows. exact E0.
Qed.

Lemma rewrite_step_some key g d mws :
  is_Some (d !! "http") -> is_Some (rewrite_step createPathRewriteMiddleware key g d mws).
Proof.
  unfold rewrite_step. intros Hd.
  destruct (Group.rewritePath g), (Group.path g); try (eexists; reflexivity).
  destruct (truthy_s (Group.pathMatchType g) && truthy_s (Group.rewritePathType g));
    [|eexists; reflexivity].
  match goal with |- context [createPathRewriteMiddleware ?a ?b ?c ?e ?f] =>
    destruct (createPathRewriteMiddleware a b c e f) as [[defs chain]|] end;
    [|eexists; reflexivity].
  destruct (ensure_middlewares_some "http" d Hd) as (d1 & p1 & E1 & Hp1 & Hm1).
  rewrite E1. simpl.
  destruct (fold_put_middleware_some defs d1 p1 Hp1 Hm1) as [d2 E2]. rewrite E2.
  simpl. eexists. reflexivity.
Qed.

Lemma headers_step_grows key g d mws d' mws' :
  headers_step parseHeaders key g d mws = Some (d', mws') ->
  grows_at "http" d d' /\ exists extra, mws' = (mws ++ extra)%list.
Proof.
  unfold headers_step. intros H.
  assert (Hid : grows_at "http" d d /\ exists extra, mws = (mws ++ extra)%list)
    by (split; [apply grows_at_refl|exists []; rewrite app_nil_r; reflexivity]).
  destruct (truthy_s (Group.headers g) || truthy_s (Group.setHostHeader g));
    [|injection H as <- <-; exact Hid].
  destruct (bool_decide (headersObj parseHeaders g = ∅)); [injection H as <- <-; exact Hid|].
  bind_step H. bind_step H. injection H as <- <-. split; [|eexists; reflexivity].
  eapply grows_at_trans; [eapply ensure_middlewares_grows; exact E|].
  eapply put_middleware_grows. exact E0.
Qed.

Lemma headers_step_some key g d mws :
  is_Some (d !! "http") -> is_Some (headers_step parseHeaders key g d mws).
Proof.
  unfold headers_step. intros Hd.
  destruct (truthy_s (Group.headers g) || truthy_s (Group.setHostHeader g));
    [|eexists; reflexivity].
  destruct (bool_decide (headersObj parseHeaders g = ∅)); [eexists; reflexivity|].
  destruct (ensure_middlewares_some "http" d Hd) as (d1 & p1 & E1 & Hp1 & Hm1).
  rewrite E1. simpl.
  destruct (put_middleware_some "http" (key +:+ "-headers-middleware")
              (MwHeaders (headersObj parseHeaders g)) d1 p1 Hp1 Hm1) as [d2 E2].
  rewrite E2. simpl. eexists. reflexivity.
Qed.

(** The [http] family of [d] with both tables, read back after a growth. *)
Lemma grows_http_tables d d' p :
  grows_at "http" d d' -> d !! "http" = Some p -> is_Some (routers p) -> is_Some (services p) ->
  exists p', d' !! "http" = Some p' /\ is_Some (routers p') /\ is_Some (services p').
Proof.
  intros Hg Hp Hr Hs. destruct (grows_at_lookup _ _ _ _ _ Hg Hp) as (p' & Hp' & (L1 & L2 & _)).
  exists p'. auto.
Qed.

Lemma grows_http_services d d' p :
  grows_at "http" d d' -> d !! "http" = Some p -> is_Some (services p) ->
  exists p', d' !! "http" = Some p' /\ is_Some (services p').
Proof.
  intros Hg Hp Hs. destruct (grows_at_lookup _ _ _ _ _ Hg Hp) as (p' & Hp' & (_ & L2 & _)).
  exists p'. auto.
Qed.

Lemma ensure_serversTransports_doc_service proto d d' m x :
  ensure_serversTransports proto d = Some d' -> doc_service m x d' = doc_service m x d.
Proof.
  unfold ensure_serversTransports, doc_service. intros H.
  destruct (d !! proto) as [q|] eqn:Eq; simpl in H; [|discriminate].
  injection H as <-. destruct (serversTransports q); [reflexivity|].
  destruct (decide (m = proto)) as [->|?];
    [rewrite lookup_insert_eq, Eq; reflexivity|rewrite lookup_insert_ne by congruence; reflexivity].
Qed.

Lemma put_transport_doc_service proto n v d d' m x :
  put_transport proto n v d = Some d' -> doc_service m x d' = doc_service m x d.
Proof.
  unfold put_transport, doc_service. intros H.
  destruct (d !! proto) as [q|] eqn:Eq; simpl in H; [|discriminate].
  destruct (serversTransports q); simpl in H; [|discriminate].
  injection H as <-.
  destruct (decide (m = proto)) as [->|?];
    [rewrite lookup_insert_eq, Eq; reflexivity|rewrite lookup_insert_ne by congruence; reflexivity].
Qed.

Lemma emit_maintenance_grows key g d d' :
  emit_maintenance cfg key g d = Some d' -> grows_at "http" d d'.
Proof.
  unfold emit_maintenance. intros H.
  bind_step H. apply put_service_grows in E.
  bind_step H. apply put_router_grows in E0.
  eapply grows_at_trans; [exact E|]. eapply grows_at_trans; [exact E0|].
  destruct (Group.ssl g); [eapply put_router_grows; exact H|].
  injection H as <-. apply grows_at_refl.
Qed.

Lemma emit_maintenance_some key g d p :
  d !! "http" = Some p -> is_Some (routers p) -> is_Some (services p) ->
  is_Some (emit_maintenance cfg key g d).
Proof.
  intros Hp Hr Hs. unfold emit_maintenance.
  match goal with |- context [put_service "http" ?n ?v d] =>
    destruct (put_service_some "http" n v d p Hp Hs) as [d1 E1]; rewrite E1 end.
  simpl.
  destruct (grows_http_tables d d1 p (put_service_grows _ _ _ _ _ E1) Hp Hr Hs)
    as (p1 & Hp1 & Hr1 & Hs1).
  match goal with |- context [put_router "http" ?n ?v d1] =>
    destruct (put_router_some "http" n v d1 p1 Hp1 Hr1) as [d2 E2]; rewrite E2 end.
  simpl. destruct (Group.ssl g); [|eexists; reflexivity].
  destruct (grows_http_tables d1 d2 p1 (put_router_grows _ _ _ _ _ E2) Hp1 Hr1 Hs1)
    as (p2 & Hp2 & Hr2 & Hs2).
  eapply put_router_some; eauto.
Qed.

Lemma put_service_doc_service_eq proto n v d d' :
  put_service proto n v d = Some d' -> doc_service proto n d' = Some v.
Proof.
  unfold put_service, doc_service. intros H.
  destruct (d !! proto) as [q|] eqn:Eq; simpl in H; [|discriminate].
  destruct (services q) as [ss|] eqn:Es; simpl in H; [|discriminate].
  injection H as <-. rewrite lookup_insert_eq. simpl. apply lookup_insert_eq.
Qed.

Lemma emit_normal_grows key g d d' :
  emit_normal cfg createPathRewriteMiddleware parseHeaders key g d = Some d' ->
  grows_at "http" d d'.
Proof.
  unfold emit_normal. intros H.
  bind_as H d1 E1. apply rewrite_step_grows in E1 as [E1 _].
  bind_as H d2 E2. apply headers_step_grows in E2 as [E2 _].
  bind_as H d3 E3. apply put_router_grows in E3.
  bind_as H d4 E4.
  assert (E4' : grows_at "http" d3 d4)
    by (destruct (Group.ssl g); [eapply put_router_grows; exact E4
                                |injection E4 as <-; apply grows_at_refl]).
  bind_as H d5 E5. apply put_service_grows in E5.
  eapply grows_at_trans; [exact E1|]. eapply grows_at_trans; [exact E2|].
  eapply grows_at_trans; [exact E3|]. eapply grows_at_trans; [exact E4'|].
  eapply grows_at_trans; [exact E5|].
  destruct (truthy_s (Group.tlsServerName g)); [|injection H as <-; apply grows_at_refl].
  bind_as H d6 E6. apply ensure_serversTransports_grows in E6.
  bind_as H d7 E7. apply put_transport_grows in E7.
  bind_as H svc E8. apply put_service_grows in H.
  eapply grows_at_trans; [exact E6|]. eapply grows_at_trans; [exact E7|]. exact H.
Qed.

Lemma emit_normal_some key g d p :
  d !! "http" = Some p -> is_Some (routers p) -> is_Some (services p) ->
  is_Some (emit_normal cfg createPathRewriteMiddleware parseHeaders key g d).
Proof.
  intros Hp Hr Hs. unfold emit_normal.
  match goal with |- context [rewrite_step _ key g d ?m] =>
    destruct (rewrite_step_some key g d m (ex_intro _ p Hp)) as [[d1 m1] E1]; rewrite E1 end.
  simpl. apply rewrite_step_grows in E1 as [G1 _].
  destruct (grows_http_tables _ _ _ G1 Hp Hr Hs) as (p1 & Hp1 & Hr1 & Hs1).
  destruct (headers_step_some key g d1 m1 (ex_intro _ p1 Hp1)) as [[d2 m2] E2]. rewrite E2.
  simpl. apply headers_step_grows in E2 as [G2 _].
  destruct (grows_http_tables _ _ _ G2 Hp1 Hr1 Hs1) as (p2 & Hp2 & Hr2 & Hs2).
  match goal with |- context [put_router "http" ?n ?v d2] =>
    destruct (put_router_some "http" n v d2 p2 Hp2 Hr2) as [d3 E3]; rewrite E3 end.
  simpl.
  destruct (grows_http_tables _ _ _ (put_router_grows _ _ _ _ _ E3) Hp2 Hr2 Hs2)
    as (p3 & Hp3 & Hr3 & Hs3).
  match goal with |- context [if Group.ssl g then ?w else Some d3] =>
    assert (E4 : exists d4 p4, (if Group.ssl g then w else Some d3) = Some d4
                               /\ d4 !! "http" = Some p4 /\ is_Some (services p4));
    [destruct (Group.ssl g); [|exists d3, p3; auto];
     match goal with |- context [put_router "http" ?n ?v d3] =>
       destruct (put_router_some "http" n v d3 p3 Hp3 Hr3) as [d4 E4]; rewrite E4 end;
     destruct (grows_http_tables _ _ _ (put_router_grows _ _ _ _ _ E4) Hp3 Hr3 Hs3)
       as (p4 & Hp4 & _ & Hs4);
     exists d4, p4; auto|] end.
  destruct E4 as (d4 & p4 & E4 & Hp4 & Hs4). rewrite E4. simpl.
  match goal with |- context [put_service "http" ?n ?v d4] =>
    destruct (put_service_some "http" n v d4 p4 Hp4 Hs4) as [d5 E5]; rewrite E5 end.
  simpl. destruct (truthy_s (Group.tlsServerName g)); [|eexists; reflexivity].
  pose proof (put_service_doc_service_eq _ _ _ _ _ E5) as Hsv.
  destruct (grows_http_services _ _ _ (put_service_grows _ _ _ _ _ E5) Hp4 Hs4)
    as (p5 & Hp5 & Hs5).
  destruct (ensure_serversTransports_some "http" d5 (ex_intro _ p5 Hp5))
    as (d6 & p6 & E6 & Hp6 & Ht6).
  rewrite E6. simpl.
  match goal with |- context [put_transport "http" ?n ?v d6] =>
    destruct (put_transport_some "http" n v d6 p6 Hp6 Ht6) as [d7 E7]; rewrite E7 end.
  simpl.
  rewrite (put_transport_doc_service _ _ _ _ _ _ _ E7).
  rewrite (ensure_serversTransports_doc_service _ _ _ _ _ E6), Hsv. simpl.
  destruct (grows_http_services _ _ _ (ensure_serversTransports_grows _ _ _ E6) Hp5 Hs5)
    as (p6' & Hp6' & Hs6).
  destruct (grows_http_services _ _ _ (put_transport_grows _ _ _ _ _ E7) Hp6' Hs6)
    as (p7 & Hp7 & Hs7).
  eapply put_service_some; eauto.
Qed.

Lemma process_http_grows key g d d' :
  process_http cfg createPathRewriteMiddleware parseHeaders key g d = Some d' ->
  grows_at "http" d d'.
Proof.
  unfold process_http. intros H.
  destruct (negb (truthy_s (Group.domainId g)) || negb (truthy_s (Group.fullDomain g)));
    [injection H as <-; apply grows_at_refl|].
  bind_as H d1 E1. apply ensure_routers_grows in E1.
  bind_as H d2 E2. apply ensure_services_grows in E2.
  eapply grows_at_trans; [exact E1|]. eapply grows_at_trans; [exact E2|].
  destruct (showMaintenancePage _ _);
    [eapply emit_maintenance_grows; exact H|eapply emit_normal_grows; exact H].
Qed.

Lemma process_raw_grows key g d d' :
  process_raw cfg key g d = Some d' -> grows_at (js_toLowerCase (Group.protocol g)) d d'.
Proof.
  unfold process_raw. intros H.
  destruct (negb (truthy_b (Group.enableProxy g)) || negb (truthy_z (Group.proxyPort g)));
    [injection H as <-; apply grows_at_refl|].
  set (proto := js_toLowerCase (Group.protocol g)) in *.
  bind_as H d2 E2. apply put_router_grows in E2. apply put_service_grows in H.
  eapply grows_at_trans; [|eapply grows_at_trans; [exact E2|exact H]].
  destruct (d !! proto) eqn:Ep; [apply grows_at_refl|].
  apply grows_at_insert. intros p Hp. congruence.
Qed.

Lemma process_group_grows key g d d' :
  process_group cfg createPathRewriteMiddleware parseHeaders key g d = Some d' ->
  grows_at (group_family g) d d'.
Proof.
  unfold process_group, group_family. intros H.
  destruct (negb (Group.enabled g)); [injection H as <-; apply grows_at_refl|].
  destruct (truthy_b (Group.http g));
    [eapply process_http_grows; exact H|eapply process_raw_grows; exact H].
Qed.

Lemma ready_grows proto d d' :
  doc_ready d -> is_Some (d !! proto) -> grows_at proto d d' -> doc_ready d'.
Proof.
  intros [[ph Hh] Hr] [p Hp] [Hle Hfr]. split.
  - destruct (Hle _ _ Hh) as (ph' & Hh' & _). eexists. exact Hh'.
  - intros k q Hk Hq. destruct (decide (k = proto)) as [->|Hne].
    + destruct (Hle _ _ Hp) as (p' & Hp' & (L1 & L2 & _)).
      rewrite Hq in Hp'. injection Hp' as <-.
      destruct (Hr proto p Hk Hp). auto.
    + rewrite Hfr in Hq by exact Hne. apply (Hr k q Hk Hq).
Qed.

Lemma process_group_ready key g d :
  doc_ready d -> raw_http_group g = false ->
  exists d', process_group cfg createPathRewriteMiddleware parseHeaders key g d = Some d'
             /\ doc_ready d'.
Proof.
  intros Hd Hg. unfold process_group.
  destruct (Group.enabled g) eqn:Een; simpl; [|exists d; auto].
  destruct (truthy_b (Group.http g)) eqn:Ehttp.
  - unfold process_http.
    destruct (negb (truthy_s (Group.domainId g)) || negb (truthy_s (Group.fullDomain g)));
      [exists d; auto|].
    destruct (ensure_routers_some "http" d (proj1 Hd)) as (d1 & p1 & E1 & Hp1 & Hr1).
    rewrite E1. simpl.
    destruct (ensure_services_some "http" d1 (ex_intro _ p1 Hp1)) as (d2 & p2 & E2 & Hp2 & Hs2).
    rewrite E2. simpl.
    assert (Hr2 : is_Some (routers p2)).
    { destruct (grows_at_lookup _ _ _ _ _ (ensure_services_grows _ _ _ E2) Hp1)
        as (p2' & Hp2' & (L & _)).
      rewrite Hp2 in Hp2'. injection Hp2' as <-. auto. }
    assert (G2 : grows_at "http" d d2)
      by (eapply grows_at_trans; [eapply ensure_routers_grows; exact E1
                                 |eapply ensure_services_grows; exact E2]).
    destruct (showMaintenancePage _ _).
    + destruct (emit_maintenance_some key g d2 p2 Hp2 Hr2 Hs2) as [d' E'].
      exists d'. split; [exact E'|]. eapply ready_grows; [exact Hd|exact (proj1 Hd)|].
      eapply grows_at_trans; [exact G2|]. eapply emit_maintenance_grows. exact E'.
    + destruct (emit_normal_some key g d2 p2 Hp2 Hr2 Hs2) as [d' E'].
      exists d'. split; [exact E'|]. eapply ready_grows; [exact Hd|exact (proj1 Hd)|].
      eapply grows_at_trans; [exact G2|]. eapply emit_normal_grows. exact E'.
  - unfold process_raw.
    destruct (negb (truthy_b (Group.enableProxy g)) || negb (truthy_z (Group.proxyPort g)))
      eqn:Eprox; [exists d; auto|].
    set (proto := js_toLowerCase (Group.protocol g)).
    assert (Hne : proto <> "http").
    { unfold raw_http_group in Hg. rewrite Een, Ehttp in Hg.
      apply orb_false_elim in Eprox as [E3 E4]. apply negb_false_iff in E3, E4.
      rewrite E3, E4 in Hg. simpl in Hg. apply String.eqb_neq. exact Hg. }
    set (d1 := match d !! proto with
               | Some _ => d
               | None => <[proto := mkProtocolConfig (Some ∅) (Some ∅) None None]> d end).
    assert (Hd1 : doc_ready d1 /\ exists p1, d1 !! proto = Some p1
                  /\ is_Some (routers p1) /\ is_Some (services p1)).
    { subst d1. destruct (d !! proto) as [p|] eqn:Ep.
      - split; [exact Hd|]. exists p. split; [exact Ep|]. apply (proj2 Hd proto p Hne Ep).
      - split.
        + split; [rewrite lookup_insert_ne by congruence; exact (proj1 Hd)|].
          intros k p Hk Hp. destruct (decide (k = proto)) as [->|?].
          * rewrite lookup_insert_eq in Hp. injection Hp as <-.
            split; eexists; reflexivity.
          * rewrite lookup_insert_ne in Hp by congruence. exact (proj2 Hd k p Hk Hp).
        + eexists. rewrite lookup_insert_eq. split; [reflexivity|split; eexists; reflexivity]. }
    destruct Hd1 as [Hr1 (p1 & Hp1 & Hrt1 & Hsv1)].
    match goal with |- context [put_router proto ?n ?v d1] =>
      destruct (put_router_some proto n v d1 p1 Hp1 Hrt1) as [d2 E2]; rewrite E2 end.
    simpl. apply put_router_grows in E2.
    destruct (grows_at_lookup _ _ _ _ _ E2 Hp1) as (p2 & Hp2 & (_ & L2 & _)).
    match goal with |- context [put_service proto ?n ?v d2] =>
      destruct (put_service_some proto n v d2 p2 Hp2 (L2 Hsv1)) as [d3 E3]; rewrite E3 end.
    exists d3. split; [reflexivity|]. apply put_service_grows in E3.
    eapply ready_grows; [exact Hr1|eexists; exact Hp1|].
    eapply grows_at_trans; [exact E2|exact E3].
Qed.

Lemma fold_process_ready (m : ResourcesMap) d :
  doc_ready d -> Forall (fun e => raw_http_group e.2 = false) m ->
  is_Some (fold_left (fun acc e => acc ≫= process_group cfg createPathRewriteMiddleware
                                            parseHeaders (js_str_undef e.1) e.2) m (Some d)).
Proof.
  intros Hd Hm. revert d Hd. induction Hm as [|e m He _ IH]; intros d Hd; simpl;
    [eexists; reflexivity|].
  destruct (process_group_ready (js_str_undef e.1) e.2 d Hd He) as (d' & E & Hd').
  rewrite E. apply IH. exact Hd'.
Qed.

Lemma fold_process_frame (m : ResourcesMap) d d' :
  Forall (fun e => group_family e.2 = "http") m ->
  fold_left (fun acc e => acc ≫= process_group cfg createPathRewriteMiddleware
                                   parseHeaders (js_str_undef e.1) e.2) m (Some d) = Some d' ->
  forall k, k <> "http" -> d' !! k = d !! k.
Proof.
  intros Hm. revert d. induction Hm as [|e m He _ IH]; intros d H k Hk; simpl in H.
  - injection H as <-. reflexivity.
  - destruct (process_group cfg createPathRewriteMiddleware parseHeaders
                (js_str_undef e.1) e.2 d) as [d1|] eqn:E1;
      [|rewrite fold_bind_None in H; discriminate].
    rewrite (IH d1 H k Hk). apply process_group_grows in E1. rewrite He in E1.
    apply (proj2 E1). exact Hk.
Qed.

Lemma aggregate_fold_inv (P : Group.t -> Prop) (rows : list Row.t) (m : ResourcesMap) :
  (forall r, In r rows -> P (new_group sanitize r)) ->
  (forall t g, P g -> P (push_target t g)) ->
  (forall e, In e m -> P e.2) ->
  forall e, In e (fold_left (aggregate_row sanitize validatePathRewriteConfig) rows m) -> P e.2.
Proof.
  intros Hnew Hpush. revert m. induction rows as [|r rows IH]; simpl; intros m Hm;
    [exact Hm|].
  apply IH; [intros r' Hr'; apply Hnew; right; exact Hr'|].
  assert (Hpm : forall k t m', (forall e, In e m' -> P e.2) ->
                               forall e, In e (map_push k t m') -> P e.2).
  { intros k t m' Hm' e He. unfold map_push in He. apply in_map_iff in He as (e' & <- & He').
    destruct (bool_decide _); [apply Hpush|]; apply Hm'; exact He'. }
  unfold aggregate_row. destruct (map_has _ _); [apply Hpm; exact Hm|].
  destruct (validatePathRewriteConfig _ _ _ _); [|exact Hm].
  apply Hpm. intros e He. apply in_app_or in He as [He|[<-|[]]]; [apply Hm; exact He|].
  apply Hnew. left. reflexivity.
Qed.

(** X12: processing one route group changes the document only in the
    protocol family the group writes to ([http] for an HTTP resource, the
    lower-cased protocol otherwise), and removes no family and no table
    that existed before. *)
Theorem process_group_frame (key : string) (g : Group.t) (d d' : Doc) :
  process_group cfg createPathRewriteMiddleware parseHeaders key g d = Some d' ->
  (forall k, k <> group_family g -> d' !! k = d !! k)
  /\ (forall k p, d !! k = Some p -> exists p', d' !! k = Some p' /\ pc_le p p').
Proof.
  intros H. apply process_group_grows in H as [Hle Hfr]. split; [exact Hfr|exact Hle].
Qed.

(** X13: a TCP/UDP route group whose protocol lower-cases to [http] makes
    [getTraefikConfig] throw when it is the first route group of the map:
    [config_output.http] exists from the start, so the assembler does not
    create the family, and it writes the group's router into
    [config_output.http.routers], which no HTTP route group has created yet
    ([TypeError] on [undefined]). *)
Theorem getTraefikConfig_raw_http_first_fails (rows : list Row.t) (k : option string)
    (g : Group.t) (rest : ResourcesMap) :
  aggregate sanitize validatePathRewriteConfig rows = (k, g) :: rest ->
  raw_http_group g = true ->
  getTraefikConfig cfg sanitize validatePathRewriteConfig createPathRewriteMiddleware
    parseHeaders rows = None.
Proof.
  intros Ha Hg.
  unfold raw_http_group in Hg.
  apply andb_prop in Hg as [Hg Hprot]. apply andb_prop in Hg as [Hg Hport].
  apply andb_prop in Hg as [Hg Hproxy]. apply andb_prop in Hg as [Hen Hhttp].
  apply String.eqb_eq in Hprot.
  assert (Ei : initial_config_output !! "http"
               = Some (mkProtocolConfig None None
                         (Some {[ redirectHttpsMiddlewareName := MwRedirectScheme "https" ]})
                         None))
    by (unfold initial_config_output; apply lookup_singleton_eq).
  assert (H0 : process_group cfg createPathRewriteMiddleware parseHeaders (js_str_undef k) g
                 initial_config_output = None).
  { unfold process_group. rewrite Hen. simpl negb. cbn iota.
    destruct (truthy_b (Group.http g)); [discriminate|].
    unfold process_raw. rewrite Hproxy, Hport. simpl negb. cbn iota.
    rewrite Hprot, Ei. unfold put_router. rewrite Ei. reflexivity. }
  unfold getTraefikConfig. rewrite Ha. unfold assemble. simpl fold_left.
  match goal with |- fold_left _ _ ?acc = None =>
    replace acc with (@None Doc) by (symmetry; exact H0) end.
  apply fold_bind_None.
Qed.

(** X14: when the snapshot query does not allow raw resources, every row it
    admits has [http = true], and the document [getTraefikConfig] returns has
    no protocol family besides [http]. *)
Theorem getTraefikConfig_http_only (exitNodeId : Z) (siteTypes : list string)
    (rows : list Row.t) (d : Doc) :
  Forall (fun r => row_admitted exitNodeId siteTypes false r = true) rows ->
  getTraefikConfig cfg sanitize validatePathRewriteConfig createPathRewriteMiddleware
    parseHeaders rows = Some d ->
  forall k, k <> "http" -> d !! k = None.
Proof.
  unfold getTraefikConfig. intros Hrows H k Hk.
  destruct (aggregate sanitize validatePathRewriteConfig rows) as [|e m] eqn:Em.
  - injection H as <-. apply lookup_empty.
  - assert (Hfam : Forall (fun e => group_family e.2 = "http") (e :: m)).
    { apply List.Forall_forall. intros x Hx. rewrite <- Em in Hx. unfold aggregate in Hx.
      apply (aggregate_fold_inv (fun g => Group.http g = Some true)) with (m := []) in Hx.
      - unfold group_family. rewrite Hx. reflexivity.
      - intros r Hr. rewrite List.Forall_forall in Hrows. specialize (Hrows r Hr).
        unfold row_admitted in Hrows. apply andb_prop in Hrows as [_ Hrows].
        apply bool_decide_eq_true_1 in Hrows. exact Hrows.
      - intros t g Hg. exact Hg.
      - intros x' [] . }
    unfold assemble in H. rewrite (fold_process_frame _ _ _ Hfam H k Hk).
    unfold initial_config_output. apply lookup_singleton_ne. congruence.
Qed.

(** *** Request headers *)


Lemma put_middleware_doc_middleware_eq proto n v d d' :
  put_middleware proto n v d = Some d' -> doc_middleware proto n d' = Some v.
Proof.
  unfold put_middleware, doc_middleware. intros H.
  destruct (d !! proto) as [q|] eqn:Eq; simpl in H; [|discriminate].
  destruct (middlewares q) as [ms|] eqn:Em; simpl in H; [|discriminate].
  injection H as <-. rewrite lookup_insert_eq. simpl. apply lookup_insert_eq.
Qed.


(** X8: a truthy [setHostHeader] always yields the headers middleware
    [<key>-headers-middleware]: it is defined under [http.middlewares] with
    [Host] set to that value, whatever the custom headers JSON holds, and it
    is appended to the end of the chain. *)
Theorem host_header_middleware (key : string) (g : Group.t) (d : Doc) (mws : list string)
    (d' : Doc) (mws' : list string) :
  truthy_s (Group.setHostHeader g) = true ->
  headers_step parseHeaders key g d mws = Some (d', mws') ->
  mws' = (mws ++ [key +:+ "-headers-middleware"])%list
  /\ exists obj, doc_middleware "http" (key +:+ "-headers-middleware") d' = Some (MwHeaders obj)
                 /\ obj !! "Host" = Some (js_str_opt (Group.setHostHeader g)).
Proof.
  unfold headers_step. intros Hs H. rewrite Hs, orb_true_r in H.
  assert (Hobj : headersObj parseHeaders g !! "Host" = Some (js_str_opt (Group.setHostHeader g)))
    by (unfold headersObj; rewrite Hs; apply lookup_insert_eq).
  rewrite bool_decide_eq_false_2 in H
    by (intros He; rewrite He, lookup_empty in Hobj; discriminate).
  bind_as H d1 E1. bind_as H d2 E2. injection H as <- <-. split; [reflexivity|].
  exists (headersObj parseHeaders g). split; [|exact Hobj].
  eapply put_middleware_doc_middleware_eq. exact E2.
Qed.

(** X9: without a truthy [setHostHeader], custom headers that are absent,
    that [JSON.parse] rejects (the error is caught and logged), or that parse
    to an empty array add no middleware and leave the document and the chain
    as they were. *)
Theorem headers_step_ignores_bad_json (key : string) (g : Group.t) (d : Doc)
    (mws : list string) :
  truthy_s (Group.setHostHeader g) = false ->
  (truthy_s (Group.headers g) = false
   \/ parseHeaders (js_str_opt (Group.headers g)) = None
   \/ parseHeaders (js_str_opt (Group.headers g)) = Some []) ->
  headers_step parseHeaders key g d mws = Some (d, mws).
Proof.
  intros Hs Hh. unfold headers_step. rewrite Hs, orb_false_r.
  destruct (truthy_s (Group.headers g)) eqn:Eh; [|reflexivity].
  rewrite bool_decide_eq_true_2; [reflexivity|].
  unfold headersObj. rewrite Eh, Hs.
  destruct Hh as [H|[H|H]]; [discriminate|rewrite H; reflexivity|rewrite H; reflexivity].
Qed.

(** *** The normal router, its chain and its redirect twin *)

Lemma doc_router_insert_same d proto p p' m x :
  d !! proto = Some p -> routers p' = routers p ->
  doc_router m x (<[proto := p']> d) = doc_router m x d.
Proof.
  intros Hp Hr. unfold doc_router. destruct (decide (m = proto)) as [->|Hne].
  - rewrite lookup_insert_eq, Hp. simpl. rewrite Hr. reflexivity.
  - rewrite lookup_insert_ne by congruence. reflexivity.
Qed.

Lemma put_middleware_doc_router proto n v d d' m x :
  put_middleware proto n v d = Some d' -> doc_router m x d' = doc_router m x d.
Proof.
  unfold put_middleware. intros H.
  destruct (d !! proto) as [q|] eqn:Eq; simpl in H; [|discriminate].
  destruct (middlewares q); simpl in H; [|discriminate].
  injection H as <-. eapply doc_router_insert_same; [exact Eq|reflexivity].
Qed.

Lemma ensure_middlewares_doc_router proto d d' m x :
  ensure_middlewares proto d = Some d' -> doc_router m x d' = doc_router m x d.
Proof.
  unfold ensure_middlewares. intros H.
  destruct (d !! proto) as [q|] eqn:Eq; simpl in H; [|discriminate].
  injection H as <-. destruct (middlewares q); [reflexivity|].
  eapply doc_router_insert_same; [exact Eq|reflexivity].
Qed.

Lemma fold_put_middleware_doc_router (defs : list (string * Middleware)) d d' m x :
  fold_left (fun acc nm => acc ≫= put_middleware "http" nm.1 nm.2) defs (Some d) = Some d' ->
  doc_router m x d' = doc_router m x d.
Proof.
  revert d. induction defs as [|nm defs IH]; simpl; intros d H.
  - injection H as <-. reflexivity.
  - destruct (put_middleware "http" nm.1 nm.2 d) as [d1|] eqn:E1;
      [|rewrite fold_bind_None in H; discriminate].
    rewrite (IH d1 H). eapply put_middleware_doc_router. exact E1.
Qed.

Lemma rewrite_step_doc_router key g d mws d' mws' m x :
  rewrite_step createPathRewriteMiddleware key g d mws = Some (d', mws') ->
  doc_router m x d' = doc_router m x d.
Proof.
  unfold rewrite_step. intros H.
  destruct (Group.rewritePath g), (Group.path g); try (injection H as <- _; reflexivity).
  destruct (truthy_s (Group.pathMatchType g) && truthy_s (Group.rewritePathType g));
    [|injection H as <- _; reflexivity].
  match type of H with context [createPathRewriteMiddleware ?a ?b ?c ?e ?f] =>
    destruct (createPathRewriteMiddleware a b c e f) as [[defs chain]|] end;
    [|injection H as <- _; reflexivity].
  bind_as H d1 E1. bind_as H d2 E2. injection H as <- _.
  rewrite (fold_put_middleware_doc_router _ _ _ _ _ E2).
  eapply ensure_middlewares_doc_router. exact E1.
Qed.

Lemma headers_step_doc_router key g d mws d' mws' m x :
  headers_step parseHeaders key g d mws = Some (d', mws') ->
  doc_router m x d' = doc_router m x d.
Proof.
  unfold headers_step. intros H.
  destruct (truthy_s (Group.headers g) || truthy_s (Group.setHostHeader g));
    [|injection H as <- _; reflexivity].
  destruct (bool_decide (headersObj parseHeaders g = ∅)); [injection H as <- _; reflexivity|].
  bind_as H d1 E1. bind_as H d2 E2. injection H as <- _.
  rewrite (put_middleware_doc_router _ _ _ _ _ _ _ E2).
  eapply ensure_middlewares_doc_router. exact E1.
Qed.

(** The steps of the normal branch up to its redirect router, and the
    routers it leaves after that. *)
Lemma emit_normal_unfold key g d d' :
  emit_normal cfg createPathRewriteMiddleware parseHeaders key g d = Some d' ->
  exists d1 mws1 d2 mws2 d3 d4,
    rewrite_step createPathRewriteMiddleware key g d
      (badgerMiddlewareName
       :: match additional_middlewares cfg with Some l => l | None => [] end)
    = Some (d1, mws1)
    /\ headers_step parseHeaders key g d1 mws1 = Some (d2, mws2)
    /\ put_router "http" (normal_router_name key g)
         (mkRouter [if Group.ssl g then https_entrypoint cfg else http_entrypoint cfg]
            (Some mws2) (key +:+ "-" +:+ Group.name g +:+ "-service")
            (Some (router_rule g)) (Some (router_priority g))
            (if Group.ssl g then Some (normal_tls cfg g) else None)) d2 = Some d3
    /\ (if Group.ssl g then
          put_router "http" (normal_router_name key g +:+ "-redirect")
            (mkRouter [http_entrypoint cfg] (Some [redirectHttpsMiddlewareName])
               (key +:+ "-" +:+ Group.name g +:+ "-service") (Some (router_rule g))
               (Some (router_priority g)) None) d3
        else Some d3) = Some d4
    /\ (forall x, doc_router "http" x d' = doc_router "http" x d4).
Proof.
  unfold emit_normal. intros H.
  bind_as H d1 E1. bind_as H d2 E2. bind_as H d3 E3. bind_as H d4 E4. bind_as H d5 E5.
  eexists _, _, _, _, _, _.
  split; [first [reflexivity|exact E1]|]. split; [first [reflexivity|exact E2]|].
  split; [first [reflexivity|exact E3]|]. split; [first [reflexivity|exact E4]|].
  intros x. rewrite <- (put_service_doc_router _ _ _ _ _ "http" x E5).
  destruct (truthy_s (Group.tlsServerName g)); [|injection H as <-; reflexivity].
  bind_as H d6 E6. bind_as H d7 E7. bind_as H svc E8.
  rewrite (put_service_doc_router _ _ _ _ _ _ _ H), (put_transport_doc_router _ _ _ _ _ _ _ E7).
  apply (ensure_serversTransports_doc_router _ _ _ _ _ E6).
Qed.




(** X11: an SSL route group gets the redirect twin [<router>-redirect] of its
    normal router: the [http] entry point, the [redirect-to-https]
    middleware alone, the same service, rule and priority, and no TLS.  A
    route group without SSL writes no router of that name. *)
Theorem ssl_redirect_router (key : string) (g : Group.t) (d d' : Doc) :
  emit_normal cfg createPathRewriteMiddleware parseHeaders key g d = Some d' ->
  (Group.ssl g = true ->
   doc_router "http" (normal_router_name key g +:+ "-redirect") d'
   = Some (mkRouter [http_entrypoint cfg] (Some [redirectHttpsMiddlewareName])
             (key +:+ "-" +:+ Group.name g +:+ "-service") (Some (router_rule g))
             (Some (router_priority g)) None))
  /\ (Group.ssl g = false ->
      doc_router "http" (normal_router_name key g +:+ "-redirect") d'
      = doc_router "http" (normal_router_name key g +:+ "-redirect") d).
Proof.
  intros H.
  destruct (emit_normal_unfold key g d d' H)
    as (d1 & m1 & d2 & m2 & d3 & d4 & E1 & E2 & E3 & E4 & Hr).
  split; intros Hs; rewrite Hr; revert E4; rewrite Hs; intros E4.
  - eapply put_router_doc_router_eq. exact E4.
  - injection E4 as <-.
    rewrite (put_router_doc_router_ne _ _ _ _ _ _
               (string_append_neq _ "-redirect" ltac:(discriminate)) E3).
    rewrite (headers_step_doc_router _ _ _ _ _ _ _ _ E2).
    apply (rewrite_step_doc_router _ _ _ _ _ _ _ _ E1).
Qed.

(** *** Targets across the route groups *)

Lemma map_push_absent k t (m : ResourcesMap) : ~ In k (map fst m) -> map_push k t m = m.
Proof.
  induction m as [|[k' g] m IH]; simpl; intros Hk; [reflexivity|].
  rewrite bool_decide_eq_false_2 by (intros ->; apply Hk; left; reflexivity).
  rewrite IH by tauto. reflexivity.
Qed.

Lemma target_count_push k t (m : ResourcesMap) :
  NoDup (map fst m) -> In k (map fst m) -> target_count (map_push k t m) = S (target_count m).
Proof.
  induction m as [|[k' g] m IH]; simpl; intros Hnd Hk; [contradiction|].
  apply NoDup_cons in Hnd as [Hnot Hnd]. unfold target_count in *. simpl.
  destruct (decide (k' = k)) as [->|Hne].
  - rewrite bool_decide_eq_true_2 by reflexivity. simpl.
    rewrite map_push_absent by (intros Hin; apply Hnot, list_elem_of_In, Hin).
    rewrite length_app. simpl. lia.
  - rewrite bool_decide_eq_false_2 by exact Hne. simpl.
    rewrite IH by first [exact Hnd|destruct Hk as [Hk|Hk]; [congruence|exact Hk]]. lia.
Qed.

Lemma fold_target_count rows m :
  NoDup (map fst m) ->
  Forall (fun r => validatePathRewriteConfig (Row.path r) (Row.pathMatchType r)
                     (Row.rewritePath r) (Row.rewritePathType r) = true) rows ->
  target_count (fold_left (aggregate_row sanitize validatePathRewriteConfig) rows m)
  = (target_count m + length rows)%nat.
Proof.
  intros Hnd Hrows. revert m Hnd. induction Hrows as [|r rows Hr _ IH]; simpl; intros m Hnd;
    [lia|].
  assert (Hnd' : NoDup (map fst (aggregate_row sanitize validatePathRewriteConfig m r))).
  { apply (fold_NoDup sanitize validatePathRewriteConfig [r] m Hnd). }
  rewrite (IH _ Hnd'). unfold aggregate_row.
  destruct (map_has (row_key sanitize r) m) eqn:Eh.
  - destruct (map_has_true _ _ Eh) as [g Hg].
    rewrite target_count_push; [lia|exact Hnd|].
    apply in_map_iff. exists (row_key sanitize r, g). auto.
  - rewrite Hr. rewrite target_count_push.
    + unfold target_count. rewrite sum_list_with_app. simpl. lia.
    + rewrite map_app. apply NoDup_snoc; [exact Hnd|]. apply map_has_false. exact Eh.
    + rewrite map_app. apply in_or_app. right. left. reflexivity.
Qed.

(** X15: aggregation loses no target and duplicates none: when every row
    passes the path/rewrite validation, the route groups together hold
    exactly one target per row. *)
Theorem aggregate_target_count (rows : list Row.t) :
  Forall (fun r => validatePathRewriteConfig (Row.path r) (Row.pathMatchType r)
                     (Row.rewritePath r) (Row.rewritePathType r) = true) rows ->
  target_count (aggregate sanitize validatePathRewriteConfig rows) = length rows.
Proof.
  intros Hrows. unfold aggregate. rewrite fold_target_count; [reflexivity|constructor|exact Hrows].
Qed.

End Assembler.

(* ------------------------------------------------------------------ *)
(** ** Witnesses of the further properties *)

Lemma http_servers_complete_witness :
  In (target_local 2 "10.0.0.5" true)
     [target_local 1 "10.0.0.5" true; target_local 2 "10.0.0.5" true]
  /\ In (http_endpoint (target_local 2 "10.0.0.5" true))
       (http_servers [target_local 1 "10.0.0.5" true; target_local 2 "10.0.0.5" true]).
Proof.
  split; [right; left; reflexivity|].
  apply http_servers_complete.
  - right. left. reflexivity.
  - vm_compute. reflexivity.
  - vm_compute. reflexivity.
Defined.

Lemma process_group_frame_witness :
  process_group cfg_example rewrite_example parse_example "2" (group_of (row_tcp 1 "10.0.0.7"))
    initial_config_output
  = Some (default ∅ (process_group cfg_example rewrite_example parse_example "2"
                       (group_of (row_tcp 1 "10.0.0.7")) initial_config_output))
  /\ forall k, k <> group_family (group_of (row_tcp 1 "10.0.0.7")) ->
       default ∅ (process_group cfg_example rewrite_example parse_example "2"
                    (group_of (row_tcp 1 "10.0.0.7")) initial_config_output) !! k
       = initial_config_output !! k.
Proof.
  split; [vm_compute; reflexivity|].
  apply (process_group_frame cfg_example rewrite_example parse_example "2"
           (group_of (row_tcp 1 "10.0.0.7")) initial_config_output).
  vm_compute. reflexivity.
Defined.

Lemma getTraefikConfig_raw_http_first_fails_witness :
  run_example [row_raw_http] = None.
Proof.
  destruct (aggregate sanitize_example valid_example [row_raw_http]) as [|[k g] rest] eqn:E;
    [vm_compute in E; discriminate|].
  apply (getTraefikConfig_raw_http_first_fails cfg_example sanitize_example valid_example
           rewrite_example parse_example [row_raw_http] k g rest E).
  vm_compute in E. injection E as _ <- _. vm_compute. reflexivity.
Defined.

Lemma getTraefikConfig_http_only_witness :
  Forall (fun r => row_admitted 1 ["local"] false r = true) [row_example]
  /\ run_example [row_example] = Some (default ∅ (run_example [row_example]))
  /\ forall k, k <> "http" -> default ∅ (run_example [row_example]) !! k = None.
Proof.
  split; [repeat constructor|]. split; [vm_compute; reflexivity|].
  apply (getTraefikConfig_http_only cfg_example sanitize_example valid_example
           rewrite_example parse_example 1 ["local"] [row_example]).
  - repeat constructor.
  - vm_compute. reflexivity.
Defined.

(* ------------------------------------------------------------------ *)
(** ** Wildcard domains *)

Lemma js_split_nonempty (c : ascii) (s : string) : js_split c s <> [].
Proof.
  induction s as [|x s IH]; simpl; [discriminate|].
  destruct (ascii_eqb x c); [discriminate|]. destruct (js_split c s); discriminate.
Qed.

Lemma js_join_split (c : ascii) (s : string) : js_join (String c "") (js_split c s) = s.
Proof.
  induction s as [|x s IH]; simpl; [reflexivity|].
  pose proof (js_split_nonempty c s) as Hne.
  remember (js_split c s) as l eqn:El.
  destruct (ascii_eqb x c) eqn:E.
  - unfold ascii_eqb in E. apply Ascii.eqb_eq in E. subst x.
    destruct l as [|h [|h' t]]; [contradiction| |]; simpl in IH |- *;
      rewrite str_app_nil, str_app_cons, str_app_nil, IH; reflexivity.
  - destruct l as [|h [|h' t]]; [contradiction| |]; simpl in IH |- *.
    + rewrite IH. reflexivity.
    + rewrite str_app_cons, IH. reflexivity.
Qed.

(** X16: with a subdomain, the normal router's wildcard is [*.] followed by
    the whole domain when the domain has at most two labels (the split and
    the join give the domain back), and otherwise the same wildcard as the
    maintenance router's, [*.] followed by the domain without its first
    label. *)
Theorem normal_wildCard_cases (g : Group.t) :
  truthy_s (Group.subdomain g) = true ->
  ((length (js_split "."%char (fd_of g)) <= 2)%nat -> normal_wildCard g = "*." +:+ fd_of g)
  /\ ((2 < length (js_split "."%char (fd_of g)))%nat ->
      normal_wildCard g = maintenance_wildCard g).
Proof.
  intros Hs. unfold normal_wildCard, maintenance_wildCard. rewrite Hs. simpl negb.
  cbv iota. unfold fd_of. split; intros Hl.
  - rewrite (proj2 (Nat.leb_le _ _) Hl). rewrite js_join_split. reflexivity.
  - rewrite (proj2 (Nat.leb_gt _ _) Hl). reflexivity.
Qed.


Lemma host_header_middleware_witness :
  exists d' mws',
    headers_step parse_headers_example "1"
      (group_set_headers (group_of row_example) (Some "[...]") (Some "app.internal"))
      doc_http_ready ["badger"] = Some (d', mws')
    /\ mws' = (["badger"] ++ ["1" +:+ "-headers-middleware"])%list
    /\ exists obj, doc_middleware "http" ("1" +:+ "-headers-middleware") d' = Some (MwHeaders obj)
                   /\ obj !! "Host" = Some "app.internal".
Proof.
  destruct (headers_step parse_headers_example "1"
              (group_set_headers (group_of row_example) (Some "[...]") (Some "app.internal"))
              doc_http_ready ["badger"]) as [[d' mws']|] eqn:E;
    [|vm_compute in E; discriminate].
  exists d', mws'. split; [reflexivity|].
  apply (host_header_middleware parse_headers_example "1"
           (group_set_headers (group_of row_example) (Some "[...]") (Some "app.internal"))
           doc_http_ready ["badger"] d' mws').
  - reflexivity.
  - exact E.
Defined.

Lemma headers_step_ignores_bad_json_witness :
  headers_step parse_example "1"
    (group_set_headers (group_of row_example) (Some "{not json") None)
    doc_http_ready ["badger"]
  = Some (doc_http_ready, ["badger"]).
Proof.
  apply (headers_step_ignores_bad_json parse_example "1"
           (group_set_headers (group_of row_example) (Some "{not json") None)
           doc_http_ready ["badger"]).
  - reflexivity.
  - right. left. reflexivity.
Defined.


Lemma ssl_redirect_router_witness :
  exists d',
    emit_normal cfg_example rewrite_example parse_example "1" (group_of row_example)
      doc_http_ready = Some d'
    /\ doc_router "http" (normal_router_name "1" (group_of row_example) +:+ "-redirect") d'
       = Some (mkRouter ["web"] (Some ["redirect-to-https"])
                 ("1" +:+ "-" +:+ "app" +:+ "-service")
                 (Some (router_rule (group_of row_example)))
                 (Some (router_priority (group_of row_example))) None).
Proof.
  destruct (emit_normal cfg_example rewrite_example parse_example "1" (group_of row_example)
              doc_http_ready) as [d'|] eqn:E; [|vm_compute in E; discriminate].
  exists d'. split; [reflexivity|].
  apply (proj1 (ssl_redirect_router cfg_example rewrite_example parse_example "1"
                  (group_of row_example) doc_http_ready d' E)).
  reflexivity.
Defined.

Lemma aggregate_target_count_witness :
  target_count (aggregate sanitize_example valid_example rows_http_same_endpoint) = 2%nat.
Proof.
  apply (aggregate_target_count sanitize_example valid_example rows_http_same_endpoint).
  repeat constructor.
Defined.

Lemma normal_wildCard_cases_witness :
  normal_wildCard (group_of (row_two_labels (Some false)))
  = "*." +:+ fd_of (group_of (row_two_labels (Some false))).
Proof.
  apply (proj1 (normal_wildCard_cases (group_of (row_two_labels (Some false))) eq_refl)).
  vm_compute. lia.
Defined.

Lemma escapeHtml_injective_witness :
  escapeHtml "Tom & <Jerry>" = "Tom &amp; &lt;Jerry&gt;" /\ "Tom & <Jerry>" = "Tom & <Jerry>".
Proof.
  split; [vm_compute; reflexivity|].
  apply (escapeHtml_injective "Tom & <Jerry>" "Tom & <Jerry>").
  reflexivity.
Defined.
